(** * InnerLight backend: the one-time-passcode flow

    A shallow embedding of the Express server that issues and verifies
    one-time passcodes (second document of [src/services/otpService.ts]):
    [generateOTP], the handlers of [POST /api/send-otp] and
    [POST /api/verify-otp], and the [setInterval] clean-up callback.

    Conventions of the embedding.
    - [otpStorage], a process-wide JavaScript [Map] from phone number to
      [{otp, expiresAt}], is a [gmap string StoredData] threaded through
      every handler.
    - [Date.now()] is an integer number of milliseconds, an argument [now : Z]
      of each handler (every handler reads the clock once).
    - [Math.random()] is an argument [random : Q] with [0 <= random < 1];
      the arithmetic of [generateOTP] is exact rational arithmetic, the
      rounding of IEEE doubles is not modelled.
    - [process.env] is a record [Env]; a request body field is an
      [option string] ([None] when the field is absent).
    - The outbound [axios.post] is an oracle [SmsRequest -> AxiosResult]; the
      handler of [send-otp] is split at its only [await].
    - [console.log] / [console.error] calls are dropped. *)

From Stdlib Require Import ZArith QArith Qround Lia Lqa Ascii String.
From stdpp Require Import gmap strings pretty fin_maps.

Local Open Scope Z_scope.

(** ** JavaScript values *)

(** JavaScript truthiness of a possibly absent string: [undefined] and the
    empty string are falsy. *)
Definition truthy (v : option string) : bool :=
  match v with
  | None => false
  | Some s => negb (String.eqb s "")
  end.

(** [\d] *)
Definition is_digit (c : ascii) : bool :=
  ((48 <=? nat_of_ascii c) && (nat_of_ascii c <=? 57))%nat.

Definition all_digits (s : string) : bool :=
  forallb is_digit (list_ascii_of_string s).

(** [/^\d{10}$/.test(phone)] *)
Definition test_phone (phone : string) : bool :=
  (String.length phone =? 10)%nat && all_digits phone.

(** ** The store *)

Record StoredData := { otp : string; expiresAt : Z }.

Abbreviation Storage := (gmap string StoredData).

(** ** Responses *)

(** The JSON envelope written by [res.status(..).json(..)]; [debug] holds the
    [otp] member of the [debug] object; members that are [undefined] are
    [None]. [res.json] alone answers with status 200. *)
Record Response := {
  status : Z;
  success : bool;
  message : string;
  debug : option string;
  error : option string;
  verified : option bool
}.

Definition failure (code : Z) (msg : string) (err : option string) : Response :=
  {| status := code; success := false; message := msg;
     debug := None; error := err; verified := None |}.

Definition sent (msg : string) (dbg : option string) : Response :=
  {| status := 200; success := true; message := msg;
     debug := dbg; error := None; verified := None |}.

(** ** Environment and transport *)

Record Env := { NODE_ENV : option string; FAST2SMS_API_KEY : option string }.

(** [process.env.NODE_ENV !== 'production'] *)
Definition not_production (env : Env) : bool :=
  match NODE_ENV env with
  | Some v => negb (String.eqb v "production")
  | None => true
  end.

Record SmsRequest := {
  sms_message : string;
  numbers : string;
  authorization : option string
}.

(** [response.data]: [return_true] is [response.data.return === true],
    [payload] the body as the provider sent it. *)
Record ProviderData := { return_true : bool; payload : string }.

(** The error caught from [axios.post]: [smsError.response?.data] and
    [smsError.message]. *)
Record SmsError := { response_data : option string; error_message : string }.

(** The promise of [axios.post] resolves with a response, whose [data] may be
    absent, or rejects. *)
Inductive AxiosResult :=
| Resolved (data : option ProviderData)
| Rejected (smsError : SmsError).

(** [smsError.response?.data || smsError.message] *)
Definition error_detail (smsError : SmsError) : string :=
  if truthy (response_data smsError)
  then default "" (response_data smsError)
  else error_message smsError.

(** Reading [response.data.return] of an absent body throws a [TypeError],
    which the inner [catch] receives like a rejection. *)
Definition type_error : SmsError :=
  {| response_data := None;
     error_message := "Cannot read properties of undefined (reading 'return')" |}.

(** ** generateOTP *)

(** [Math.floor(100000 + Math.random() * 900000).toString()] *)
Definition generateOTP (random : Q) : string :=
  pretty (Qfloor (100000 + random * 900000)%Q).

(** The decimal digit [d] as a character. *)
Definition digit_char (d : Z) : ascii := ascii_of_nat (48 + Z.to_nat d).

Fixpoint zero_padded_go (width : nat) (n : Z) (acc : string) : string :=
  match width with
  | O => acc
  | S width =>
    zero_padded_go width (n / 10) (String (digit_char (n mod 10)) acc)
  end.

(** The zero-padded numeric representation the interface asks for: the
    decimal digits of [n] written on [width] places, most significant first,
    with zeros in the places [n] does not fill. *)
Definition zero_padded (width : nat) (n : Z) : string :=
  zero_padded_go width n "".

(** ** POST /api/send-otp *)

(** The body and headers handed to [axios.post]. *)
Definition sms_request (apiKey : option string) (phone code : string)
    : SmsRequest :=
  {| sms_message :=
       "Your InnerLight OTP is " +:+ code +:+
       ". Valid for 5 minutes. Do not share with anyone.";
     numbers := phone;
     authorization := apiKey |}.

Inductive SendStep :=
| Respond (res : Response)
| AwaitSms (req : SmsRequest) (code : string).

(** The handler up to [await axios.post(..)]. *)
Definition send_otp_begin (env : Env) (now : Z) (random : Q)
    (phone : option string) (otpStorage : Storage) : Storage * SendStep :=
  match phone with
  | None => (otpStorage, Respond (failure 400 "Phone number is required" None))
  | Some phone =>
    if negb (truthy (Some phone)) then
      (otpStorage, Respond (failure 400 "Phone number is required" None))
    else if negb (test_phone phone) then
      (otpStorage,
       Respond (failure 400 "Invalid phone number. Must be 10 digits." None))
    else
      let code := generateOTP random in
      let otpStorage :=
        <[phone := {| otp := code; expiresAt := now + 5 * 60 * 1000 |}]>
          otpStorage in
      let apiKey := FAST2SMS_API_KEY env in
      let isDev := not_production env in
      let isPlaceholderKey := negb (truthy apiKey) in
      if isDev && isPlaceholderKey then
        (otpStorage, Respond (sent "OTP sent successfully (Dev Mode)" (Some code)))
      else
        (otpStorage, AwaitSms (sms_request apiKey phone code) code)
  end.

(** The [catch (smsError)] block. *)
Definition send_otp_catch (env : Env) (code : string) (smsError : SmsError)
    : Response :=
  if not_production env then
    sent "OTP sent (Dev Fallback - Check Console)" (Some code)
  else
    failure 500 "Failed to send OTP via SMS service"
      (Some (error_detail smsError)).

(** The handler after [await axios.post(..)]. *)
Definition send_otp_resume (env : Env) (code : string) (result : AxiosResult)
    : Response :=
  match result with
  | Resolved (Some data) =>
    if return_true data then
      sent "OTP sent successfully"
        (if not_production env then Some code else None)
    else if not_production env then
      sent "OTP sent (Dev Fallback - Check Console)" (Some code)
    else
      failure 500 "Failed to send OTP via SMS Provider" (Some (payload data))
  | Resolved None => send_otp_catch env code type_error
  | Rejected smsError => send_otp_catch env code smsError
  end.

(** The whole handler, against a transport [axios_post]. *)
Definition send_otp (env : Env) (axios_post : SmsRequest -> AxiosResult)
    (now : Z) (random : Q) (phone : option string) (otpStorage : Storage)
    : Storage * Response :=
  match send_otp_begin env now random phone otpStorage with
  | (otpStorage, Respond res) => (otpStorage, res)
  | (otpStorage, AwaitSms req code) =>
    (otpStorage, send_otp_resume env code (axios_post req))
  end.

(** The transport did not deliver: the provider answered without
    [return === true], or the call threw. *)
Definition transport_failed (result : AxiosResult) : bool :=
  match result with
  | Resolved (Some data) => negb (return_true data)
  | Resolved None => true
  | Rejected _ => true
  end.

(** What the provider said about the failure. *)
Definition provider_detail (result : AxiosResult) : string :=
  match result with
  | Resolved (Some data) => payload data
  | Resolved None => error_detail type_error
  | Rejected smsError => error_detail smsError
  end.

(** Sample deployments and transports. *)
Definition dev_env : Env := {| NODE_ENV := None; FAST2SMS_API_KEY := None |}.

Definition prod_env : Env :=
  {| NODE_ENV := Some "production"; FAST2SMS_API_KEY := Some "live-key" |}.

Definition provider_accepts (req : SmsRequest) : AxiosResult :=
  Resolved (Some {| return_true := true; payload := "queued" |}).

Definition provider_refuses (req : SmsRequest) : AxiosResult :=
  Resolved (Some {| return_true := false; payload := "Insufficient balance" |}).

Definition provider_down (req : SmsRequest) : AxiosResult :=
  Rejected {| response_data := None; error_message := "connect ETIMEDOUT" |}.

Definition sample_entry : StoredData :=
  {| otp := "483920"; expiresAt := 300000 |}.

Definition sample_storage : Storage := {[ "9876543210" := sample_entry ]}.

(** ** POST /api/verify-otp *)

Definition fields_required : Response :=
  failure 400 "Phone number and OTP are required" None.

Definition not_found : Response :=
  failure 400 "No OTP found for this phone number. Please request a new OTP." None.

Definition expired : Response :=
  failure 400 "OTP has expired. Please request a new one." None.

Definition mismatch : Response :=
  failure 400 "Invalid OTP. Please try again." None.

Definition verified_ok : Response :=
  {| status := 200; success := true; message := "OTP verified successfully";
     debug := None; error := None; verified := Some true |}.

Definition verify_otp (now : Z) (phone code : option string)
    (otpStorage : Storage) : Storage * Response :=
  match phone, code with
  | Some phone, Some code =>
    if negb (truthy (Some phone)) || negb (truthy (Some code)) then
      (otpStorage, fields_required)
    else
      match otpStorage !! phone with
      | None => (otpStorage, not_found)
      | Some storedData =>
        if now >? expiresAt storedData then
          (delete phone otpStorage, expired)
        else if String.eqb (otp storedData) code then
          (delete phone otpStorage, verified_ok)
        else
          (otpStorage, mismatch)
      end
  | _, _ => (otpStorage, fields_required)
  end.

(** ** The clean-up timer *)

(** [60 * 1000], the period handed to [setInterval]. *)
Definition cleanup_period : Z := 60 * 1000.

(** The callback: the [for .. of otpStorage.entries()] loop deletes from the
    map it iterates over. *)
Definition cleanup (now : Z) (otpStorage : Storage) : Storage :=
  map_fold
    (fun phone data acc =>
       if now >? expiresAt data then delete phone acc else acc)
    otpStorage otpStorage.

(** * The browser side

    The first document of [src/services/otpService.ts] is the client of the
    two endpoints, the third the [Auth] component that calls it.
    - [fetch(..)] followed by [response.json()] is an oracle of type [Fetch]:
      it yields the parsed body, or fails (the request or the response is
      lost, or the body is not JSON).
    - A React state variable is a field of [Auth.State]; a [setX(v)] call is
      the setter [Auth.setX v]; a handler is split at its [await], the part
      after it applies to the state of that later moment.
    - [BeliefSystem] and [User] are declared in [../types], which is not part
      of the sources; a belief is carried as an opaque string. *)

(** [value.replace(/\D/g, '')] *)
Fixpoint strip_non_digits (value : string) : string :=
  match value with
  | EmptyString => EmptyString
  | String c rest =>
    if is_digit c then String c (strip_non_digits rest)
    else strip_non_digits rest
  end.

Module Client.

(** The parsed JSON body of an answer of the two OTP endpoints. *)
Record Data := {
  success : bool;
  message : string;
  debug : option string;
  error : option string;
  verified : option bool
}.

(** The parsed JSON body of the health endpoint; a member the body lacks is
    [None]. *)
Record Health := { status : option string; health_message : option string }.

Inductive Fetch (A : Type) :=
| Fetched (data : A)
| FetchFailed.

Arguments Fetched {A} data.
Arguments FetchFailed {A}.

Definition failed (msg : string) : Data :=
  {| success := false; message := msg;
     debug := None; error := None; verified := None |}.

Definition sendOTP (fetch : string -> Fetch Data) (phone : string) : Data :=
  match fetch phone with
  | Fetched data => data
  | FetchFailed => failed "Failed to send OTP. Please try again."
  end.

Definition verifyOTP (fetch : string -> string -> Fetch Data)
    (phone otp : string) : Data :=
  match fetch phone otp with
  | Fetched data => data
  | FetchFailed => failed "Failed to verify OTP. Please try again."
  end.

(** [data.status === 'OK'] *)
Definition checkBackendHealth (fetch : Fetch Health) : bool :=
  match fetch with
  | Fetched data =>
    match status data with
    | Some v => String.eqb v "OK"
    | None => false
    end
  | FetchFailed => false
  end.

End Client.

(** [res.json(body)]: the body the client parses; the HTTP status stays in
    the response line. *)
Definition json_body (res : Response) : Client.Data :=
  {| Client.success := success res; Client.message := message res;
     Client.debug := debug res; Client.error := error res;
     Client.verified := verified res |}.

(** GET /api/health *)
Definition health : Client.Health :=
  {| Client.status := Some "OK";
     Client.health_message := Some "InnerLight Backend is running" |}.

(** What may happen to a request on its way: it is answered, it is lost
    before the server sees it, or the server handles it and the answer is
    lost. *)
Inductive Network := Answered | RequestLost | ResponseLost.

(** [fetch('/api/send-otp', {method: 'POST', body: JSON.stringify({phone})})]
    against the server. *)
Definition post_send_otp (net : Network) (env : Env)
    (axios_post : SmsRequest -> AxiosResult) (now : Z) (random : Q)
    (phone : string) (otpStorage : Storage)
    : Storage * Client.Fetch Client.Data :=
  match net with
  | RequestLost => (otpStorage, Client.FetchFailed)
  | ResponseLost =>
    (fst (send_otp env axios_post now random (Some phone) otpStorage),
     Client.FetchFailed)
  | Answered =>
    (fst (send_otp env axios_post now random (Some phone) otpStorage),
     Client.Fetched
       (json_body (snd (send_otp env axios_post now random (Some phone) otpStorage))))
  end.

(** [fetch('/api/verify-otp', {.., body: JSON.stringify({phone, otp})})]
    against the server. *)
Definition post_verify_otp (net : Network) (now : Z) (phone code : string)
    (otpStorage : Storage) : Storage * Client.Fetch Client.Data :=
  match net with
  | RequestLost => (otpStorage, Client.FetchFailed)
  | ResponseLost =>
    (fst (verify_otp now (Some phone) (Some code) otpStorage), Client.FetchFailed)
  | Answered =>
    (fst (verify_otp now (Some phone) (Some code) otpStorage),
     Client.Fetched
       (json_body (snd (verify_otp now (Some phone) (Some code) otpStorage))))
  end.

(** An accepted answer, as the server writes it. *)
Definition accepted_answer : Client.Data :=
  {| Client.success := true; Client.message := "OTP verified successfully";
     Client.debug := None; Client.error := None;
     Client.verified := Some true |}.

Module Auth.

Inductive Kind := Success | Error.

(** [{ type: 'success' | 'error', text: string }] *)
Record Feedback := { type : Kind; text : string }.

(** The [useState] variables of the component. *)
Record State := {
  isSignup : bool;
  email : string;
  password : string;
  name : string;
  age : string;
  gender : string;
  phone : string;
  belief : string;
  loading : bool;
  feedback : option Feedback;
  showOTPVerification : bool;
  otp : string;
  otpSent : bool;
  otpLoading : bool;
  isPhoneVerified : bool
}.

(** The values the [useState] calls start from; [spirituality] stands for
    [BeliefSystem.SPIRITUALITY]. *)
Definition initial (spirituality : string) : State :=
  {| isSignup := false; email := ""; password := ""; name := ""; age := "";
     gender := ""; phone := ""; belief := spirituality; loading := false;
     feedback := None; showOTPVerification := false; otp := "";
     otpSent := false; otpLoading := false; isPhoneVerified := false |}.

Definition setIsSignup (v : bool) (s : State) : State :=
  {| isSignup := v; email := email s; password := password s; name := name s;
     age := age s; gender := gender s; phone := phone s; belief := belief s;
     loading := loading s; feedback := feedback s;
     showOTPVerification := showOTPVerification s; otp := otp s;
     otpSent := otpSent s; otpLoading := otpLoading s;
     isPhoneVerified := isPhoneVerified s |}.

Definition setEmail (v : string) (s : State) : State :=
  {| isSignup := isSignup s; email := v; password := password s;
     name := name s; age := age s; gender := gender s; phone := phone s;
     belief := belief s; loading := loading s; feedback := feedback s;
     showOTPVerification := showOTPVerification s; otp := otp s;
     otpSent := otpSent s; otpLoading := otpLoading s;
     isPhoneVerified := isPhoneVerified s |}.

Definition setPassword (v : string) (s : State) : State :=
  {| isSignup := isSignup s; email := email s; password := v; name := name s;
     age := age s; gender := gender s; phone := phone s; belief := belief s;
     loading := loading s; feedback := feedback s;
     showOTPVerification := showOTPVerification s; otp := otp s;
     otpSent := otpSent s; otpLoading := otpLoading s;
     isPhoneVerified := isPhoneVerified s |}.

Definition setName (v : string) (s : State) : State :=
  {| isSignup := isSignup s; email := email s; password := password s;
     name := v; age := age s; gender := gender s; phone := phone s;
     belief := belief s; loading := loading s; feedback := feedback s;
     showOTPVerification := showOTPVerification s; otp := otp s;
     otpSent := otpSent s; otpLoading := otpLoading s;
     isPhoneVerified := isPhoneVerified s |}.

Definition setAge (v : string) (s : State) : State :=
  {| isSignup := isSignup s; email := email s; password := password s;
     name := name s; age := v; gender := gender s; phone := phone s;
     belief := belief s; loading := loading s; feedback := feedback s;
     showOTPVerification := showOTPVerification s; otp := otp s;
     otpSent := otpSent s; otpLoading := otpLoading s;
     isPhoneVerified := isPhoneVerified s |}.

Definition setGender (v : string) (s : State) : State :=
  {| isSignup := isSignup s; email := email s; password := password s;
     name := name s; age := age s; gender := v; phone := phone s;
     belief := belief s; loading := loading s; feedback := feedback s;
     showOTPVerification := showOTPVerification s; otp := otp s;
     otpSent := otpSent s; otpLoading := otpLoading s;
     isPhoneVerified := isPhoneVerified s |}.

Definition setPhone (v : string) (s : State) : State :=
  {| isSignup := isSignup s; email := email s; password := password s;
     name := name s; age := age s; gender := gender s; phone := v;
     belief := belief s; loading := loading s; feedback := feedback s;
     showOTPVerification := showOTPVerification s; otp := otp s;
     otpSent := otpSent s; otpLoading := otpLoading s;
     isPhoneVerified := isPhoneVerified s |}.

Definition setBelief (v : string) (s : State) : State :=
  {| isSignup := isSignup s; email := email s; password := password s;
     name := name s; age := age s; gender := gender s; phone := phone s;
     belief := v; loading := loading s; feedback := feedback s;
     showOTPVerification := showOTPVerification s; otp := otp s;
     otpSent := otpSent s; otpLoading := otpLoading s;
     isPhoneVerified := isPhoneVerified s |}.

Definition setLoading (v : bool) (s : State) : State :=
  {| isSignup := isSignup s; email := email s; password := password s;
     name := name s; age := age s; gender := gender s; phone := phone s;
     belief := belief s; loading := v; feedback := feedback s;
     showOTPVerification := showOTPVerification s; otp := otp s;
     otpSent := otpSent s; otpLoading := otpLoading s;
     isPhoneVerified := isPhoneVerified s |}.

Definition setFeedback (v : option Feedback) (s : State) : State :=
  {| isSignup := isSignup s; email := email s; password := password s;
     name := name s; age := age s; gender := gender s; phone := phone s;
     belief := belief s; loading := loading s; feedback := v;
     showOTPVerification := showOTPVerification s; otp := otp s;
     otpSent := otpSent s; otpLoading := otpLoading s;
     isPhoneVerified := isPhoneVerified s |}.

Definition setShowOTPVerification (v : bool) (s : State) : State :=
  {| isSignup := isSignup s; email := email s; password := password s;
     name := name s; age := age s; gender := gender s; phone := phone s;
     belief := belief s; loading := loading s; feedback := feedback s;
     showOTPVerification := v; otp := otp s; otpSent := otpSent s;
     otpLoading := otpLoading s; isPhoneVerified := isPhoneVerified s |}.

Definition setOtp (v : string) (s : State) : State :=
  {| isSignup := isSignup s; email := email s; password := password s;
     name := name s; age := age s; gender := gender s; phone := phone s;
     belief := belief s; loading := loading s; feedback := feedback s;
     showOTPVerification := showOTPVerification s; otp := v;
     otpSent := otpSent s; otpLoading := otpLoading s;
     isPhoneVerified := isPhoneVerified s |}.

Definition setOtpSent (v : bool) (s : State) : State :=
  {| isSignup := isSignup s; email := email s; password := password s;
     name := name s; age := age s; gender := gender s; phone := phone s;
     belief := belief s; loading := loading s; feedback := feedback s;
     showOTPVerification := showOTPVerification s; otp := otp s;
     otpSent := v; otpLoading := otpLoading s;
     isPhoneVerified := isPhoneVerified s |}.

Definition setOtpLoading (v : bool) (s : State) : State :=
  {| isSignup := isSignup s; email := email s; password := password s;
     name := name s; age := age s; gender := gender s; phone := phone s;
     belief := belief s; loading := loading s; feedback := feedback s;
     showOTPVerification := showOTPVerification s; otp := otp s;
     otpSent := otpSent s; otpLoading := v;
     isPhoneVerified := isPhoneVerified s |}.

Definition setIsPhoneVerified (v : bool) (s : State) : State :=
  {| isSignup := isSignup s; email := email s; password := password s;
     name := name s; age := age s; gender := gender s; phone := phone s;
     belief := belief s; loading := loading s; feedback := feedback s;
     showOTPVerification := showOTPVerification s; otp := otp s;
     otpSent := otpSent s; otpLoading := otpLoading s;
     isPhoneVerified := v |}.

(** [handleSendOTP] up to [await sendOTP(phone)]: the phone to send, or
    [None] when the guard returns early. *)
Definition handleSendOTP_begin (s : State) : State * option string :=
  if negb (truthy (Some (phone s))) || negb (String.length (phone s) =? 10)%nat
  then
    (setFeedback
       (Some {| type := Error;
                text := "Please enter a valid 10-digit phone number" |}) s,
     None)
  else
    (setFeedback None (setOtpLoading true s), Some (phone s)).

(** [handleSendOTP] after the [await]. *)
Definition handleSendOTP_resume (result : Client.Data) (s : State) : State :=
  let s :=
    if Client.success result then
      let s := setOtpSent true s in
      let s := setShowOTPVerification true s in
      let s :=
        setFeedback (Some {| type := Success; text := Client.message result |}) s in
      if truthy (Client.debug result) then
        setFeedback
          (Some {| type := Success;
                   text := "OTP sent! (Dev: " +:+
                           default "" (Client.debug result) +:+ ")" |}) s
      else s
    else
      setFeedback (Some {| type := Error; text := Client.message result |}) s in
  setOtpLoading false s.

(** [handleVerifyOTP] up to [await verifyOTP(phone, otp)]. *)
Definition handleVerifyOTP_begin (s : State) : State * option (string * string) :=
  if negb (truthy (Some (otp s))) || negb (String.length (otp s) =? 6)%nat
  then
    (setFeedback
       (Some {| type := Error; text := "Please enter a valid 6-digit OTP" |}) s,
     None)
  else
    (setFeedback None (setOtpLoading true s), Some (phone s, otp s)).

(** [result.success && result.verified] *)
Definition accepted (result : Client.Data) : bool :=
  Client.success result &&
  match Client.verified result with
  | Some v => v
  | None => false
  end.

(** [handleVerifyOTP] after the [await]. *)
Definition handleVerifyOTP_resume (result : Client.Data) (s : State) : State :=
  let s :=
    if accepted result then
      let s :=
        setFeedback
          (Some {| type := Success; text := "Phone verified successfully!" |}) s in
      let s := setShowOTPVerification false s in
      let s := setOtpSent false s in
      let s := setOtp "" s in
      setIsPhoneVerified true s
    else
      setFeedback (Some {| type := Error; text := Client.message result |}) s in
  setOtpLoading false s.

Definition toggleMode (s : State) : State :=
  let s' := setIsSignup (negb (isSignup s)) s in
  let s' := setFeedback None s' in
  let s' := setShowOTPVerification false s' in
  let s' := setOtpSent false s' in
  setOtp "" s'.

(** [handleSubmit] up to [setTimeout(.., 1500)]: [Some isSignup] when the
    timer is armed, with the [isSignup] its callback closes over. *)
Definition handleSubmit_begin (s : State) : State * option bool :=
  if isSignup s && negb (isPhoneVerified s) then
    (setFeedback
       (Some {| type := Error;
                text := "Please verify your phone number with OTP first." |}) s,
     None)
  else
    (setFeedback None (setLoading true s), Some (isSignup s)).

(** The callback of the timer. In the login branch the mock user (random id,
    [parseInt], [Date]) is handed to [localStorage] and [onLogin]; of that
    branch only the state change and the fact of the login are kept: the
    second component tells whether [onLogin] was called. *)
Definition handleSubmit_timeout (registering : bool) (s : State) : State * bool :=
  if registering then
    let s := setLoading false s in
    let s := setIsSignup false s in
    let s :=
      setFeedback
        (Some {| type := Success;
                 text := "Account created successfully! Please log in." |}) s in
    let s := setPassword "" s in
    let s := setIsPhoneVerified false s in
    (setOtpSent false s, false)
  else
    (setLoading false s, true).

(** Everything that can happen to the component: the [onChange], [onClick]
    and [onSubmit] handlers of its form, and the continuations of the three
    asynchronous ones. *)
Inductive Event :=
| NameChanged (value : string)
| AgeChanged (value : string)
| GenderChanged (value : string)
| PhoneChanged (value : string)
| OtpChanged (value : string)
| BeliefChanged (value : string)
| EmailChanged (value : string)
| PasswordChanged (value : string)
| SendClicked
| SendReturned (result : Client.Data)
| VerifyClicked
| VerifyReturned (result : Client.Data)
| Submitted
| TimerFired (registering : bool)
| ModeToggled.

Definition step (s : State) (e : Event) : State :=
  match e with
  | NameChanged value => setName value s
  | AgeChanged value => setAge value s
  | GenderChanged value => setGender value s
  | PhoneChanged value => setPhone (strip_non_digits value) s
  | OtpChanged value => setOtp (strip_non_digits value) s
  | BeliefChanged value => setBelief value s
  | EmailChanged value => setEmail value s
  | PasswordChanged value => setPassword value s
  | SendClicked => fst (handleSendOTP_begin s)
  | SendReturned result => handleSendOTP_resume result s
  | VerifyClicked => fst (handleVerifyOTP_begin s)
  | VerifyReturned result => handleVerifyOTP_resume result s
  | Submitted => fst (handleSubmit_begin s)
  | TimerFired registering => fst (handleSubmit_timeout registering s)
  | ModeToggled => toggleMode s
  end.

Definition run (events : list Event) (s : State) : State :=
  fold_left step events s.

End Auth.

(** ** What the handlers keep true of the store *)



(** * Properties *)

(** ** Decimal rendering *)

Lemma pretty_N_char_digit (x : N) :
  (x < 10)%N -> pretty_N_char x = digit_char (Z.of_N x).
Proof.
  intros Hx.
  assert (x = 0 \/ x = 1 \/ x = 2 \/ x = 3 \/ x = 4 \/ x = 5 \/ x = 6
          \/ x = 7 \/ x = 8 \/ x = 9)%N as Hcases by lia.
  repeat (destruct Hcases as [-> | Hcases]; [reflexivity |]).
  subst x. reflexivity.
Qed.

Lemma is_digit_digit_char (d : Z) : 0 <= d < 10 -> is_digit (digit_char d) = true.
Proof.
  intros Hd.
  assert (d = 0 \/ d = 1 \/ d = 2 \/ d = 3 \/ d = 4 \/ d = 5 \/ d = 6
          \/ d = 7 \/ d = 8 \/ d = 9) as Hcases by lia.
  repeat (destruct Hcases as [-> | Hcases]; [reflexivity |]).
  subst d. reflexivity.
Qed.

(** [toString] of a number with exactly [S w] digits writes [S w] places. *)
Lemma pretty_N_go_padded (w : nat) : forall (x : N) (s : string),
  (10 ^ N.of_nat w <= x < 10 ^ N.of_nat (S w))%N ->
  pretty_N_go x s = zero_padded_go (S w) (Z.of_N x) s.
Proof.
  induction w as [| w IH]; intros x s [Hlo Hhi].
  - change (10 ^ N.of_nat 0)%N with 1%N in Hlo.
    change (10 ^ N.of_nat 1)%N with 10%N in Hhi.
    rewrite pretty_N_go_step by lia.
    rewrite (N.div_small x 10) by lia.
    rewrite pretty_N_go_0. cbn [zero_padded_go].
    rewrite pretty_N_char_digit by (apply N.mod_lt; lia).
    now rewrite N2Z.inj_mod.
  - rewrite Nat2N.inj_succ, N.pow_succ_r' in Hlo.
    rewrite (Nat2N.inj_succ (S w)), N.pow_succ_r' in Hhi.
    assert (0 < 10 ^ N.of_nat w)%N as Hpos
      by (apply N.neq_0_lt_0, N.pow_nonzero; lia).
    rewrite pretty_N_go_step by lia.
    rewrite IH.
    + cbn [zero_padded_go].
      rewrite pretty_N_char_digit by (apply N.mod_lt; lia).
      now rewrite N2Z.inj_mod, N2Z.inj_div.
    + split.
      * apply N.div_le_lower_bound; lia.
      * apply N.Div0.div_lt_upper_bound; lia.
Qed.

Lemma zero_padded_go_length (w : nat) : forall (n : Z) (s : string),
  String.length (zero_padded_go w n s) = (w + String.length s)%nat.
Proof.
  induction w as [| w IH]; intros n s; cbn [zero_padded_go]; [reflexivity |].
  rewrite IH. cbn [String.length]. lia.
Qed.

Lemma zero_padded_go_digits (w : nat) : forall (n : Z) (s : string),
  all_digits s = true -> all_digits (zero_padded_go w n s) = true.
Proof.
  induction w as [| w IH]; intros n s Hs; cbn [zero_padded_go]; [exact Hs |].
  apply IH. unfold all_digits. cbn [list_ascii_of_string forallb].
  rewrite is_digit_digit_char by (apply Z.mod_pos_bound; lia).
  exact Hs.
Qed.

Lemma toString_six_digits (n : Z) :
  100000 <= n <= 999999 -> pretty n = zero_padded 6 n.
Proof.
  intros Hn. destruct n as [| p | p]; try lia.
  change (pretty (Z.pos p)) with (pretty (N.pos p)).
  unfold pretty, pretty_N. destruct (decide (N.pos p = 0%N)) as [H0 | _]; [lia |].
  unfold zero_padded. rewrite (pretty_N_go_padded 5).
  - reflexivity.
  - change (10 ^ N.of_nat 5)%N with 100000%N.
    change (10 ^ N.of_nat 6)%N with 1000000%N. lia.
Qed.

(** ** generateOTP *)


Lemma generateOTP_range (random : Q) :
  (0 <= random < 1)%Q ->
  100000 <= Qfloor (100000 + random * 900000)%Q <= 999999.
Proof.
  intros [Hlo Hhi]. split.
  - rewrite <- (Qfloor_Z 100000) at 1. apply Qfloor_resp_le.
    change (inject_Z 100000) with 100000%Q. lra.
  - assert (inject_Z (Qfloor (100000 + random * 900000)%Q) < inject_Z 1000000)%Q
      as Hlt.
    { eapply Qle_lt_trans; [apply Qfloor_le |].
      change (inject_Z 1000000) with 1000000%Q. lra. }
    rewrite <- Zlt_Qlt in Hlt. lia.
Qed.




Example generateOTP_half : generateOTP (1 # 2) = "550000".
Proof. reflexivity. Qed.

Example generateOTP_least : generateOTP 0 = "100000".
Proof. reflexivity. Qed.

(** No generated code starts with the digit 0: the places are all filled. *)
Lemma generateOTP_leading_digit (random : Q) :
  (0 <= random < 1)%Q ->
  exists (c : ascii) (rest : string),
    generateOTP random = String c rest /\ c <> "0"%char.
Proof.
  intros Hr. pose proof (generateOTP_range random Hr) as Hn.
  unfold generateOTP. rewrite (toString_six_digits _ Hn).
  set (n := Qfloor _) in *. unfold zero_padded. cbn [zero_padded_go].
  eexists _, _. split; [reflexivity |].
  assert (n / 10 / 10 / 10 / 10 / 10 = n / 100000) as ->
    by (rewrite !Z.div_div by lia; reflexivity).
  assert (1 <= n / 100000 < 10) as Hd
    by (split; [apply Z.div_le_lower_bound | apply Z.div_lt_upper_bound]; lia).
  rewrite Z.mod_small by lia.
  assert (n / 100000 = 1 \/ n / 100000 = 2 \/ n / 100000 = 3 \/ n / 100000 = 4
          \/ n / 100000 = 5 \/ n / 100000 = 6 \/ n / 100000 = 7
          \/ n / 100000 = 8 \/ n / 100000 = 9) as Hcases by lia.
  repeat (destruct Hcases as [-> | Hcases]; [discriminate |]).
  rewrite Hcases. discriminate.
Qed.

(** ** Required fields *)

Lemma truthy_Some (s : string) : s <> "" -> truthy (Some s) = true.
Proof.
  intros Hs. cbn [truthy]. destruct (String.eqb_spec s ""); [contradiction | reflexivity].
Qed.

Lemma test_phone_nonempty (phone : string) : test_phone phone = true -> phone <> "".
Proof. intros Ht ->. discriminate Ht. Qed.

Lemma generateOTP_nonempty (random : Q) :
  (0 <= random < 1)%Q -> generateOTP random <> "".
Proof.
  intros Hr Heq. destruct (generateOTP_leading_digit random Hr) as (c & rest & Hc & _).
  congruence.
Qed.

(** ** verify-otp, case by case *)

Section Verify.
Variables (now : Z) (phone code : string) (otpStorage : Storage).
Hypothesis phone_given : phone <> "".
Hypothesis code_given : code <> "".

Lemma verify_otp_absent :
  otpStorage !! phone = None ->
  verify_otp now (Some phone) (Some code) otpStorage = (otpStorage, not_found).
Proof.
  intros Hget. unfold verify_otp.
  rewrite !truthy_Some by assumption. cbn [negb orb]. now rewrite Hget.
Qed.

Variable storedData : StoredData.
Hypothesis stored : otpStorage !! phone = Some storedData.

Lemma verify_otp_expired :
  expiresAt storedData < now ->
  verify_otp now (Some phone) (Some code) otpStorage
  = (delete phone otpStorage, expired).
Proof.
  intros Hlt. unfold verify_otp.
  rewrite !truthy_Some by assumption. cbn [negb orb]. rewrite stored.
  destruct (Z.gtb_spec now (expiresAt storedData)); [reflexivity | lia].
Qed.

Lemma verify_otp_match :
  now <= expiresAt storedData ->
  otp storedData = code ->
  verify_otp now (Some phone) (Some code) otpStorage
  = (delete phone otpStorage, verified_ok).
Proof.
  intros Hle Heq. unfold verify_otp.
  rewrite !truthy_Some by assumption. cbn [negb orb]. rewrite stored.
  destruct (Z.gtb_spec now (expiresAt storedData)); [lia |].
  destruct (String.eqb_spec (otp storedData) code); [reflexivity | contradiction].
Qed.

Lemma verify_otp_mismatch :
  now <= expiresAt storedData ->
  otp storedData <> code ->
  verify_otp now (Some phone) (Some code) otpStorage = (otpStorage, mismatch).
Proof.
  intros Hle Hne. unfold verify_otp.
  rewrite !truthy_Some by assumption. cbn [negb orb]. rewrite stored.
  destruct (Z.gtb_spec now (expiresAt storedData)); [lia |].
  destruct (String.eqb_spec (otp storedData) code); [contradiction | reflexivity].
Qed.
End Verify.

(** ** send-otp: what issuance stores *)

(** A well-formed phone number passes both guards: the entry is written and the
    handler either answers in development mode or reaches the transport. *)
Lemma send_otp_begin_stores (env : Env) (now : Z) (random : Q) (phone : string)
    (otpStorage : Storage) :
  test_phone phone = true ->
  fst (send_otp_begin env now random (Some phone) otpStorage)
  = <[phone := {| otp := generateOTP random; expiresAt := now + 300000 |}]>
      otpStorage.
Proof.
  intros Ht. unfold send_otp_begin.
  rewrite truthy_Some by now apply test_phone_nonempty.
  rewrite Ht. cbn [negb].
  now destruct (not_production env && negb (truthy (FAST2SMS_API_KEY env))).
Qed.

Lemma send_otp_stores (env : Env) (axios_post : SmsRequest -> AxiosResult)
    (now : Z) (random : Q) (phone : string) (otpStorage : Storage) :
  test_phone phone = true ->
  fst (send_otp env axios_post now random (Some phone) otpStorage)
  = <[phone := {| otp := generateOTP random; expiresAt := now + 300000 |}]>
      otpStorage.
Proof.
  intros Ht. rewrite <- (send_otp_begin_stores env now random phone otpStorage Ht).
  unfold send_otp.
  now destruct (send_otp_begin env now random (Some phone) otpStorage) as [st [res | req c]].
Qed.

(** Whatever code a response carries in [debug.otp] is the generated one. *)
Lemma send_otp_debug (env : Env) (axios_post : SmsRequest -> AxiosResult)
    (now : Z) (random : Q) (phone : option string) (otpStorage : Storage)
    (c : string) :
  debug (snd (send_otp env axios_post now random phone otpStorage)) = Some c ->
  not_production env = true /\ c = generateOTP random.
Proof.
  unfold send_otp, send_otp_begin.
  destruct phone as [phone |]; [| discriminate].
  destruct (negb (truthy (Some phone))); [discriminate |].
  destruct (negb (test_phone phone)); [discriminate |].
  destruct (not_production env) eqn:Hdev; cbn [andb].
  - destruct (negb (truthy (FAST2SMS_API_KEY env))); cbn [snd].
    + cbn. intros [= <-]. now split.
    + unfold send_otp_resume, send_otp_catch. rewrite Hdev.
      destruct (axios_post _) as [[data |] | smsError];
        [destruct (return_true data) | |]; cbn; intros [= <-]; now split.
  - cbn [snd]. unfold send_otp_resume, send_otp_catch. rewrite Hdev.
    destruct (axios_post _) as [[data |] | smsError];
      [destruct (return_true data) | |]; discriminate.
Qed.

(** ** The clean-up loop *)

Lemma cleanup_loop_lookup (now : Z) (acc : Storage) (phone : string) :
  forall entries : Storage,
  map_fold
    (fun phone data acc =>
       if now >? expiresAt data then delete phone acc else acc)
    acc entries !! phone
  = match entries !! phone with
    | Some data => if now >? expiresAt data then None else acc !! phone
    | None => acc !! phone
    end.
Proof.
  intros entries. revert phone.
  apply (map_fold_weak_ind
           (fun (r : Storage) (m : Storage) => forall phone : string,
              r !! phone
              = match m !! phone with
                | Some data => if now >? expiresAt data then None else acc !! phone
                | None => acc !! phone
                end)).
  - intros phone. now rewrite lookup_empty.
  - intros i x m r Hfresh IH phone.
    destruct (decide (i = phone)) as [-> | Hne].
    + rewrite lookup_insert_eq.
      destruct (now >? expiresAt x).
      * apply lookup_delete_eq.
      * rewrite IH, Hfresh. reflexivity.
    + rewrite lookup_insert_ne by assumption. rewrite <- IH.
      destruct (now >? expiresAt x); [| reflexivity].
      now apply lookup_delete_ne.
Qed.

Lemma cleanup_lookup (now : Z) (otpStorage : Storage) (phone : string) :
  cleanup now otpStorage !! phone
  = match otpStorage !! phone with
    | Some data => if now >? expiresAt data then None else Some data
    | None => None
    end.
Proof.
  unfold cleanup. rewrite cleanup_loop_lookup.
  now destruct (otpStorage !! phone) as [data |].
Qed.

(** C8. The clean-up callback, scheduled every 60 seconds, evicts exactly
    the entries whose expiry has passed and leaves every other entry as it
    was; it needs no verify call; after a sweep at [now] no stored entry has
    [expiresAt < now]. *)
Theorem cleanup_evicts_exactly_expired (now : Z) (otpStorage : Storage) :
  cleanup_period = 60000 /\
  cleanup now otpStorage
  = filter (fun entry => ~ now > expiresAt (snd entry)) otpStorage /\
  (forall phone : string,
     cleanup now otpStorage !! phone
     = match otpStorage !! phone with
       | Some data => if now >? expiresAt data then None else Some data
       | None => None
       end) /\
  map_Forall (fun _ data => ~ expiresAt data < now) (cleanup now otpStorage).
Proof.
  split; [reflexivity |]. split; [| split].
  - apply map_eq. intros phone. rewrite cleanup_lookup.
    destruct (otpStorage !! phone) as [data |] eqn:Hget.
    + destruct (Z.gtb_spec now (expiresAt data)) as [Hgt | Hle]; symmetry.
      * apply map_lookup_filter_None. right. intros x Hx.
        rewrite Hget in Hx. injection Hx as <-. cbn. lia.
      * apply map_lookup_filter_Some. split; [assumption | cbn; lia].
    + symmetry. apply map_lookup_filter_None. now left.
  - intros phone. apply cleanup_lookup.
  - intros phone data Hget. rewrite cleanup_lookup in Hget.
    destruct (otpStorage !! phone) as [data' |]; [| discriminate].
    destruct (Z.gtb_spec now (expiresAt data')); [discriminate |].
    injection Hget as <-. lia.
Qed.

(** ** Issue, then verify *)



(** ** Expiry *)

(** C2. When the entry of a phone has lapsed ([expiresAt] in the past),
    verify answers "OTP has expired" and deletes the entry, whatever code is
    submitted: the clock is compared before the codes, so the stored code
    itself is refused too. No entry remains for the phone: a further verify
    finds no code. *)
Theorem verify_after_expiry (now : Z) (phone : string) (otpStorage : Storage)
    (storedData : StoredData) :
  phone <> "" ->
  otpStorage !! phone = Some storedData ->
  expiresAt storedData < now ->
  (forall code, code <> "" ->
     verify_otp now (Some phone) (Some code) otpStorage
     = (delete phone otpStorage, expired)) /\
  (otp storedData <> "" ->
     verify_otp now (Some phone) (Some (otp storedData)) otpStorage
     = (delete phone otpStorage, expired)) /\
  success expired = false /\
  delete phone otpStorage !! phone = None /\
  (forall now' code, code <> "" ->
     verify_otp now' (Some phone) (Some code) (delete phone otpStorage)
     = (delete phone otpStorage, not_found)).
Proof.
  intros Hphone Hget Hlt.
  assert (forall code, code <> "" ->
            verify_otp now (Some phone) (Some code) otpStorage
            = (delete phone otpStorage, expired)) as Hexp.
  { intros code Hcode. now apply (verify_otp_expired _ _ _ _ Hphone Hcode storedData). }
  split; [exact Hexp |]. split; [apply Hexp |].
  split; [reflexivity |]. split; [apply lookup_delete_eq |].
  intros now' code Hcode. apply verify_otp_absent; [assumption .. |].
  apply lookup_delete_eq.
Qed.

Lemma verify_after_expiry_witness :
  "9876543210" <> "" /\
  sample_storage !! "9876543210" = Some sample_entry /\
  expiresAt sample_entry < 300001 /\
  verify_otp 300001 (Some "9876543210") (Some (otp sample_entry)) sample_storage
  = (delete "9876543210" sample_storage, expired).
Proof.
  assert ("9876543210" <> "") as Hphone by discriminate.
  assert (sample_storage !! "9876543210" = Some sample_entry) as Hget
    by apply lookup_singleton_eq.
  assert (expiresAt sample_entry < 300001) as Hlt by (simpl; lia).
  split; [exact Hphone |]. split; [exact Hget |]. split; [exact Hlt |].
  apply (verify_after_expiry 300001 "9876543210" sample_storage sample_entry
           Hphone Hget Hlt).
  discriminate.
Defined.

(** ** Wrong code *)

(** C4. While the entry of a phone has not lapsed, verify with a code other
    than the stored one answers "Invalid OTP" and leaves the store as it was;
    the stored code still verifies afterwards, up to its expiry. *)
Theorem verify_mismatch_keeps_code (now : Z) (phone code : string)
    (otpStorage : Storage) (storedData : StoredData) :
  phone <> "" ->
  code <> "" ->
  otpStorage !! phone = Some storedData ->
  now <= expiresAt storedData ->
  code <> otp storedData ->
  verify_otp now (Some phone) (Some code) otpStorage = (otpStorage, mismatch) /\
  success mismatch = false /\
  fst (verify_otp now (Some phone) (Some code) otpStorage) !! phone
  = Some storedData /\
  (forall now', now' <= expiresAt storedData -> otp storedData <> "" ->
     verify_otp now' (Some phone) (Some (otp storedData))
       (fst (verify_otp now (Some phone) (Some code) otpStorage))
     = (delete phone otpStorage, verified_ok)).
Proof.
  intros Hphone Hcode Hget Hle Hne.
  assert (verify_otp now (Some phone) (Some code) otpStorage
          = (otpStorage, mismatch)) as Hmis.
  { apply (verify_otp_mismatch _ _ _ _ Hphone Hcode storedData Hget Hle). congruence. }
  rewrite Hmis. cbn [fst].
  split; [reflexivity |]. split; [reflexivity |]. split; [exact Hget |].
  intros now' Hle' Hstored.
  now apply (verify_otp_match _ _ _ _ Hphone Hstored storedData Hget Hle').
Qed.

Lemma verify_mismatch_keeps_code_witness :
  "9876543210" <> "" /\
  "000000" <> "" /\
  sample_storage !! "9876543210" = Some sample_entry /\
  10000 <= expiresAt sample_entry /\
  "000000" <> otp sample_entry /\
  verify_otp 10000 (Some "9876543210") (Some "000000") sample_storage
  = (sample_storage, mismatch).
Proof.
  assert ("9876543210" <> "") as Hphone by discriminate.
  assert ("000000" <> "") as Hcode by discriminate.
  assert (sample_storage !! "9876543210" = Some sample_entry) as Hget
    by apply lookup_singleton_eq.
  assert (10000 <= expiresAt sample_entry) as Hle by (simpl; lia).
  assert ("000000" <> otp sample_entry) as Hne by discriminate.
  repeat (split; [assumption |]).
  apply (verify_mismatch_keeps_code 10000 "9876543210" "000000" sample_storage
           sample_entry Hphone Hcode Hget Hle Hne).
Defined.

(** ** The expiry instant *)



(** ** Re-issuance *)

(** A verify that succeeds was given the code the store holds. *)
Lemma verify_otp_success_inv (now : Z) (phone code : option string)
    (otpStorage : Storage) :
  success (snd (verify_otp now phone code otpStorage)) = true ->
  exists (p c : string) (storedData : StoredData),
    phone = Some p /\ code = Some c /\
    otpStorage !! p = Some storedData /\ otp storedData = c /\
    now <= expiresAt storedData.
Proof.
  unfold verify_otp.
  destruct phone as [p |]; [| discriminate].
  destruct code as [c |]; [| discriminate].
  destruct (negb (truthy (Some p)) || negb (truthy (Some c))); [discriminate |].
  destruct (otpStorage !! p) as [storedData |] eqn:Hget; [| discriminate].
  destruct (Z.gtb_spec now (expiresAt storedData)); [discriminate |].
  destruct (String.eqb_spec (otp storedData) c); [| discriminate].
  intros _. exists p, c, storedData.
  do 4 (split; [first [reflexivity | assumption] |]). lia.
Qed.

(** The claim C5 as worded, that after a second issuance the previous code
    always fails verify, does not hold: nothing keeps the generator from
    drawing the same six digits again, and then the previous code is the
    pending one. *)
Lemma reissue_previous_code_counterexample :
  ~ (forall (env : Env) (axios_post : SmsRequest -> AxiosResult)
       (now1 now2 now3 : Z) (random1 random2 : Q) (phone : string)
       (otpStorage : Storage),
       test_phone phone = true ->
       (0 <= random1 < 1)%Q ->
       (0 <= random2 < 1)%Q ->
       let first := fst (send_otp env axios_post now1 random1 (Some phone) otpStorage) in
       let second := fst (send_otp env axios_post now2 random2 (Some phone) first) in
       success (snd (verify_otp now3 (Some phone) (Some (generateOTP random1)) second))
       = false).
Proof.
  intros Hclaim.
  assert ((0 <= 1 # 2 < 1)%Q) as Hr by (split; [discriminate | reflexivity]).
  specialize (Hclaim dev_env provider_down 0 1000 2000 (1 # 2) (1 # 2)
                "9876543210" ∅ eq_refl Hr Hr).
  cbv zeta in Hclaim.
  rewrite (send_otp_stores dev_env provider_down 1000 (1 # 2) "9876543210")
    in Hclaim by reflexivity.
  rewrite (verify_otp_match 2000 "9876543210" (generateOTP (1 # 2)) _
             ltac:(discriminate) ltac:(discriminate)
             {| otp := generateOTP (1 # 2); expiresAt := 1000 + 300000 |})
    in Hclaim.
  - discriminate Hclaim.
  - apply lookup_insert_eq.
  - simpl. lia.
  - reflexivity.
Qed.

(** C5, amended. For a well-formed phone number, issuance overwrites whatever
    entry the phone had: the store is the old one with the single entry of the
    phone set to the fresh code and to the expiry [now + 300000] ms, so a phone
    never has two pending codes. A previous code that differs from the fresh
    one fails verify from then on, with "Invalid OTP" inside the new window. *)
Theorem reissue_replaces_pending_code (env : Env)
    (axios_post : SmsRequest -> AxiosResult) (now : Z) (random : Q)
    (phone : string) (otpStorage : Storage) :
  test_phone phone = true ->
  let issued := fst (send_otp env axios_post now random (Some phone) otpStorage) in
  let fresh := {| otp := generateOTP random; expiresAt := now + 300 * 1000 |} in
  issued = <[phone := fresh]> otpStorage /\
  issued !! phone = Some fresh /\
  (forall other : string, other <> phone -> issued !! other = otpStorage !! other) /\
  (forall (previous : StoredData) (now' : Z),
     otpStorage !! phone = Some previous ->
     otp previous <> generateOTP random ->
     success (snd (verify_otp now' (Some phone) (Some (otp previous)) issued))
     = false /\
     (otp previous <> "" -> now' <= now + 300 * 1000 ->
      verify_otp now' (Some phone) (Some (otp previous)) issued
      = (issued, mismatch))).
Proof.
  intros Ht issued fresh.
  assert (issued = <[phone := fresh]> otpStorage) as Heq
    by (unfold issued; now rewrite send_otp_stores).
  assert (issued !! phone = Some fresh) as Hget
    by (rewrite Heq; apply lookup_insert_eq).
  split; [exact Heq |]. split; [exact Hget |]. split.
  - intros other Hne. rewrite Heq. now apply lookup_insert_ne.
  - intros previous now' Hprev Hne. split.
    + destruct (success (snd (verify_otp now' (Some phone) (Some (otp previous)) issued)))
        eqn:Hs; [| reflexivity].
      apply verify_otp_success_inv in Hs
        as (p & c & storedData & [= <-] & [= <-] & Hget' & Hotp & _).
      rewrite Hget in Hget'. injection Hget' as <-.
      cbn in Hotp. congruence.
    + intros Hgiven Hle.
      apply (verify_otp_mismatch now' phone (otp previous) issued
               (test_phone_nonempty phone Ht) Hgiven fresh Hget).
      * exact Hle.
      * cbn. congruence.
Qed.

Lemma reissue_replaces_pending_code_witness :
  test_phone "9876543210" = true /\
  fst (send_otp dev_env provider_down 400000 (1 # 2) (Some "9876543210")
         sample_storage)
  !! "9876543210"
  = Some {| otp := "550000"; expiresAt := 700000 |}.
Proof.
  assert (test_phone "9876543210" = true) as Ht by reflexivity.
  split; [exact Ht |].
  exact (proj1 (proj2 (reissue_replaces_pending_code dev_env provider_down 400000
                         (1 # 2) "9876543210" sample_storage Ht))).
Defined.

(** ** Delivery *)

Lemma not_production_false (env : Env) :
  not_production env = false <-> NODE_ENV env = Some "production".
Proof.
  unfold not_production. destruct (NODE_ENV env) as [v |]; [| split; discriminate].
  destruct (String.eqb_spec v "production") as [-> | Hne]; cbn.
  - split; reflexivity.
  - split; [discriminate | congruence].
Qed.


Lemma send_otp_resume_production_failure (env : Env) (code : string)
    (result : AxiosResult) :
  not_production env = false ->
  transport_failed result = true ->
  exists msg : string,
    send_otp_resume env code result
    = failure 500 msg (Some (provider_detail result)).
Proof.
  intros Hprod Hfail. unfold send_otp_resume, send_otp_catch. rewrite Hprod.
  destruct result as [[data |] | smsError]; cbn in Hfail |- *.
  - destruct (return_true data); [discriminate |]. eexists. reflexivity.
  - eexists. reflexivity.
  - eexists. reflexivity.
Qed.



Example production_transport_down :
  snd (send_otp prod_env provider_down 0 (1 # 2) (Some "9876543210") ∅)
  = failure 500 "Failed to send OTP via SMS service" (Some "connect ETIMEDOUT").
Proof. reflexivity. Qed.

(** C3. In production no response of send-otp carries [debug.otp], a success
    response in particular; a response that carries [debug.otp] comes from a
    runtime that is not production (the development shortcut, a delivered
    message in development, or a fallback after a transport failure), and the
    code it carries is the generated one. *)
Theorem production_success_hides_code (env : Env)
    (axios_post : SmsRequest -> AxiosResult) (now : Z) (random : Q)
    (phone : option string) (otpStorage : Storage) :
  let res := snd (send_otp env axios_post now random phone otpStorage) in
  (NODE_ENV env = Some "production" -> debug res = None) /\
  (forall c : string,
     debug res = Some c ->
     NODE_ENV env <> Some "production" /\ c = generateOTP random).
Proof.
  intros res.
  assert (forall c : string,
            debug res = Some c ->
            NODE_ENV env <> Some "production" /\ c = generateOTP random) as Hdebug.
  { intros c Hc. apply send_otp_debug in Hc as [Hdev ->]. split; [| reflexivity].
    intros Hprod. apply not_production_false in Hprod. congruence. }
  split; [| exact Hdebug].
  intros Hprod. destruct (debug res) as [c |] eqn:Hc; [| reflexivity].
  now destruct (Hdebug c eq_refl) as [Hne _].
Qed.

Example production_success_response :
  snd (send_otp prod_env provider_accepts 0 (1 # 2) (Some "9876543210") ∅)
  = sent "OTP sent successfully" None.
Proof. reflexivity. Qed.

Example development_shortcut_response :
  snd (send_otp dev_env provider_accepts 0 (1 # 2) (Some "9876543210") ∅)
  = sent "OTP sent successfully (Dev Mode)" (Some "550000").
Proof. reflexivity. Qed.



(** * Further properties of the server *)

(** ** send-otp: validation *)



(** The response to a well-formed phone number. *)
Lemma send_otp_valid_response (env : Env)
    (axios_post : SmsRequest -> AxiosResult) (now : Z) (random : Q)
    (phone : string) (otpStorage : Storage) :
  test_phone phone = true ->
  snd (send_otp env axios_post now random (Some phone) otpStorage)
  = if not_production env && negb (truthy (FAST2SMS_API_KEY env))
    then sent "OTP sent successfully (Dev Mode)" (Some (generateOTP random))
    else send_otp_resume env (generateOTP random)
           (axios_post
              (sms_request (FAST2SMS_API_KEY env) phone (generateOTP random))).
Proof.
  intros Ht. unfold send_otp, send_otp_begin.
  rewrite truthy_Some by now apply test_phone_nonempty.
  rewrite Ht. cbn [negb].
  now destruct (not_production env && negb (truthy (FAST2SMS_API_KEY env))).
Qed.

(** ** send-otp: delivery policy *)

(** X2. Outside production a well-formed request is never blocked by the
    transport: whatever the provider does (delivers, refuses, throws), the
    answer is 200 with [success: true] and the generated code in
    [debug.otp]. *)
Theorem development_never_blocked (env : Env)
    (axios_post : SmsRequest -> AxiosResult) (now : Z) (random : Q)
    (phone : string) (otpStorage : Storage) :
  test_phone phone = true ->
  NODE_ENV env <> Some "production" ->
  let res := snd (send_otp env axios_post now random (Some phone) otpStorage) in
  status res = 200 /\ success res = true /\
  debug res = Some (generateOTP random) /\ error res = None.
Proof.
  intros Ht Hdev res.
  assert (not_production env = true) as Hnp.
  { destruct (not_production env) eqn:Hnp; [reflexivity |].
    now apply not_production_false in Hnp. }
  unfold res. rewrite send_otp_valid_response by assumption. rewrite Hnp.
  destruct (negb (truthy (FAST2SMS_API_KEY env))); cbn [andb].
  - repeat split.
  - unfold send_otp_resume, send_otp_catch. rewrite Hnp.
    destruct (axios_post _) as [[data |] | smsError];
      [destruct (return_true data) | |]; repeat split.
Qed.

Lemma development_never_blocked_witness :
  test_phone "9876543210" = true /\
  NODE_ENV dev_env <> Some "production" /\
  snd (send_otp {| NODE_ENV := Some "test"; FAST2SMS_API_KEY := Some "live-key" |}
         provider_down 0 (1 # 2) (Some "9876543210") ∅)
  = sent "OTP sent (Dev Fallback - Check Console)" (Some "550000") /\
  debug (snd (send_otp dev_env provider_down 0 (1 # 2) (Some "9876543210") ∅))
  = Some (generateOTP (1 # 2)).
Proof.
  assert (test_phone "9876543210" = true) as Ht by reflexivity.
  assert (NODE_ENV dev_env <> Some "production") as Hdev by discriminate.
  split; [exact Ht |]. split; [exact Hdev |]. split; [reflexivity |].
  exact (proj1 (proj2 (proj2
    (development_never_blocked dev_env provider_down 0 (1 # 2) "9876543210" ∅
       Ht Hdev)))).
Defined.

(** X3. In production a well-formed request succeeds exactly when the
    provider answered with [return === true]; the success response is then
    the plain "OTP sent successfully", status 200, without [debug]. *)
Theorem production_success_iff_delivered (env : Env)
    (axios_post : SmsRequest -> AxiosResult) (now : Z) (random : Q)
    (phone : string) (otpStorage : Storage) :
  test_phone phone = true ->
  NODE_ENV env = Some "production" ->
  let result :=
    axios_post (sms_request (FAST2SMS_API_KEY env) phone (generateOTP random)) in
  let res := snd (send_otp env axios_post now random (Some phone) otpStorage) in
  success res = negb (transport_failed result) /\
  (transport_failed result = false -> res = sent "OTP sent successfully" None).
Proof.
  intros Ht Hprod result res. apply not_production_false in Hprod.
  unfold res. rewrite send_otp_valid_response by assumption.
  rewrite Hprod. cbn [andb]. fold result.
  unfold send_otp_resume, send_otp_catch. rewrite Hprod.
  destruct result as [[data |] | smsError]; cbn [transport_failed].
  - destruct (return_true data); split; (reflexivity || discriminate).
  - split; [reflexivity | discriminate].
  - split; [reflexivity | discriminate].
Qed.

Lemma production_success_iff_delivered_witness :
  test_phone "9876543210" = true /\
  NODE_ENV prod_env = Some "production" /\
  success (snd (send_otp prod_env provider_accepts 0 (1 # 2) (Some "9876543210") ∅))
  = true.
Proof.
  assert (test_phone "9876543210" = true) as Ht by reflexivity.
  assert (NODE_ENV prod_env = Some "production") as Hprod by reflexivity.
  split; [exact Ht |]. split; [exact Hprod |].
  exact (proj1 (production_success_iff_delivered prod_env provider_accepts 0
                  (1 # 2) "9876543210" ∅ Ht Hprod)).
Defined.

(** X4. Outside production, with no API key configured (absent or empty),
    the transport is not consulted at all: the outcome of the handler is the
    development answer whatever [axios_post] would do. *)
Theorem development_without_key_skips_transport (env : Env)
    (axios_post : SmsRequest -> AxiosResult) (now : Z) (random : Q)
    (phone : string) (otpStorage : Storage) :
  test_phone phone = true ->
  NODE_ENV env <> Some "production" ->
  truthy (FAST2SMS_API_KEY env) = false ->
  send_otp_begin env now random (Some phone) otpStorage
  = (<[phone := {| otp := generateOTP random; expiresAt := now + 300000 |}]>
       otpStorage,
     Respond (sent "OTP sent successfully (Dev Mode)" (Some (generateOTP random)))) /\
  send_otp env axios_post now random (Some phone) otpStorage
  = (<[phone := {| otp := generateOTP random; expiresAt := now + 300000 |}]>
       otpStorage,
     sent "OTP sent successfully (Dev Mode)" (Some (generateOTP random))).
Proof.
  intros Ht Hdev Hkey.
  assert (not_production env = true) as Hnp.
  { destruct (not_production env) eqn:Hnp; [reflexivity |].
    now apply not_production_false in Hnp. }
  assert (send_otp_begin env now random (Some phone) otpStorage
          = (<[phone := {| otp := generateOTP random; expiresAt := now + 300000 |}]>
               otpStorage,
             Respond (sent "OTP sent successfully (Dev Mode)"
                        (Some (generateOTP random))))) as Hbegin.
  { unfold send_otp_begin.
    rewrite truthy_Some by now apply test_phone_nonempty.
    rewrite Ht, Hnp, Hkey. reflexivity. }
  split; [exact Hbegin |]. unfold send_otp. now rewrite Hbegin.
Qed.

Lemma development_without_key_skips_transport_witness :
  test_phone "9876543210" = true /\
  NODE_ENV dev_env <> Some "production" /\
  truthy (FAST2SMS_API_KEY dev_env) = false /\
  send_otp dev_env provider_down 0 (1 # 2) (Some "9876543210") ∅
  = send_otp dev_env provider_accepts 0 (1 # 2) (Some "9876543210") ∅.
Proof.
  assert (test_phone "9876543210" = true) as Ht by reflexivity.
  assert (NODE_ENV dev_env <> Some "production") as Hdev by discriminate.
  assert (truthy (FAST2SMS_API_KEY dev_env) = false) as Hkey by reflexivity.
  split; [exact Ht |]. split; [exact Hdev |]. split; [exact Hkey |].
  rewrite (proj2 (development_without_key_skips_transport dev_env provider_down
                    0 (1 # 2) "9876543210" ∅ Ht Hdev Hkey)).
  reflexivity.
Defined.

(** ** Response envelopes *)

Lemma send_otp_resume_cases (env : Env) (code : string) (result : AxiosResult) :
  (exists msg dbg, send_otp_resume env code result = sent msg dbg) \/
  (exists msg detail,
     send_otp_resume env code result = failure 500 msg (Some detail)).
Proof.
  unfold send_otp_resume, send_otp_catch.
  destruct result as [[data |] | smsError];
    [destruct (return_true data) | |];
    destruct (not_production env); eauto.
Qed.


Lemma verify_otp_cases (now : Z) (phone code : option string)
    (otpStorage : Storage) :
  let out := verify_otp now phone code otpStorage in
  (fst out = otpStorage /\
   (snd out = fields_required \/ snd out = not_found \/ snd out = mismatch)) \/
  (exists p, phone = Some p /\ fst out = delete p otpStorage /\
             (snd out = expired \/ snd out = verified_ok)).
Proof.
  unfold verify_otp.
  destruct phone as [p |]; [| cbn; auto].
  destruct code as [c |]; [| cbn; auto].
  destruct (negb (truthy (Some p)) || negb (truthy (Some c))); [cbn; auto |].
  destruct (otpStorage !! p) as [storedData |]; [| cbn; auto].
  destruct (now >? expiresAt storedData); [right; exists p; cbn; auto |].
  destruct (String.eqb (otp storedData) c); [right; exists p; cbn; auto |].
  cbn; auto.
Qed.


(** ** verify-otp: refusals and acceptance *)


(** X8. verify-otp accepts exactly when both fields are present and
    non-empty, the phone has an entry, the entry has not lapsed
    ([now <= expiresAt]) and its code equals the submitted one; on acceptance
    the entry is deleted. *)
Theorem verify_otp_accepts_iff (now : Z) (phone code : option string)
    (otpStorage : Storage) :
  (success (snd (verify_otp now phone code otpStorage)) = true <->
   exists (p c : string) (storedData : StoredData),
     phone = Some p /\ code = Some c /\ p <> "" /\ c <> "" /\
     otpStorage !! p = Some storedData /\
     now <= expiresAt storedData /\ otp storedData = c) /\
  (forall p, success (snd (verify_otp now phone code otpStorage)) = true ->
   phone = Some p ->
   verify_otp now phone code otpStorage = (delete p otpStorage, verified_ok)).
Proof.
  split; [split |].
  - unfold verify_otp.
    destruct phone as [p |]; [| discriminate].
    destruct code as [c |]; [| discriminate].
    destruct (String.eqb_spec p "") as [-> | Hp]; [discriminate |].
    destruct (String.eqb_spec c "") as [-> | Hc].
    { rewrite truthy_Some by assumption. discriminate. }
    rewrite !truthy_Some by assumption. cbn [negb orb].
    destruct (otpStorage !! p) as [storedData |] eqn:Hget; [| discriminate].
    destruct (Z.gtb_spec now (expiresAt storedData)); [discriminate |].
    destruct (String.eqb_spec (otp storedData) c); [| discriminate].
    intros _. exists p, c, storedData.
    do 5 (split; [first [reflexivity | assumption] |]). split; [lia | assumption].
  - intros (p & c & storedData & -> & -> & Hp & Hc & Hget & Hle & Heq).
    now rewrite (verify_otp_match now p c otpStorage Hp Hc storedData Hget Hle Heq).
  - intros p Hs ->.
    destruct (verify_otp_cases now (Some p) code otpStorage)
      as [[Hst Hres] | (p' & [= <-] & Hst & Hres)].
    + destruct Hres as [Hres | [Hres | Hres]]; rewrite Hres in Hs; discriminate.
    + destruct Hres as [Hres | Hres]; [rewrite Hres in Hs; discriminate |].
      rewrite <- Hst, <- Hres. now destruct (verify_otp now (Some p) code otpStorage).
Qed.

(** X9. verify-otp only ever touches the entry of the phone it is asked
    about: the entries of all other phones are as before, and no entry is
    added or altered (the store afterwards is a sub-map of the store
    before). *)
Theorem verify_otp_frame (now : Z) (phone code : option string)
    (otpStorage : Storage) :
  (forall other : string,
     phone <> Some other ->
     fst (verify_otp now phone code otpStorage) !! other = otpStorage !! other) /\
  fst (verify_otp now phone code otpStorage) ⊆ otpStorage.
Proof.
  destruct (verify_otp_cases now phone code otpStorage)
    as [[Hst _] | (p & -> & Hst & _)]; cbv zeta in Hst; rewrite Hst.
  - split; [reflexivity | reflexivity].
  - split.
    + intros other Hne. apply lookup_delete_ne. congruence.
    + apply delete_subseteq.
Qed.

(** ** The clean-up, composed *)

(** X10. Two sweeps amount to one sweep at the later of the two times, in
    either order; in particular a sweep repeated at the same time changes
    nothing more. *)
Theorem cleanup_twice (a b : Z) (otpStorage : Storage) :
  cleanup a (cleanup b otpStorage) = cleanup (Z.max a b) otpStorage /\
  cleanup a (cleanup a otpStorage) = cleanup a otpStorage.
Proof.
  assert (forall a b, cleanup a (cleanup b otpStorage)
                      = cleanup (Z.max a b) otpStorage) as Hmax.
  { clear a b. intros a b. apply map_eq. intros phone.
    rewrite !cleanup_lookup.
    destruct (otpStorage !! phone) as [data |]; [| reflexivity].
    destruct (Z.gtb_spec b (expiresAt data)),
             (Z.gtb_spec (Z.max a b) (expiresAt data)); try lia; try reflexivity.
    - destruct (Z.gtb_spec a (expiresAt data)); [reflexivity | lia].
    - destruct (Z.gtb_spec a (expiresAt data)); [lia | reflexivity]. }
  split; [apply Hmax |]. rewrite Hmax. now rewrite Z.max_id.
Qed.

Lemma cleanup_delete (now : Z) (phone : string) (otpStorage : Storage) :
  cleanup now (delete phone otpStorage) = delete phone (cleanup now otpStorage).
Proof.
  apply map_eq. intros other. rewrite cleanup_lookup.
  destruct (decide (phone = other)) as [-> | Hne].
  - now rewrite !lookup_delete_eq.
  - rewrite !lookup_delete_ne by assumption. now rewrite cleanup_lookup.
Qed.

(** X11. A sweep that ran earlier does not change what a later verify
    decides: the store after "sweep, then verify" is the store after "verify,
    then sweep", acceptance is the same, and the answer is the same except
    that an entry the sweep already removed is reported "No OTP found" where
    verify alone would have said "expired". *)
Theorem cleanup_then_verify (sweep now : Z) (phone code : option string)
    (otpStorage : Storage) :
  sweep <= now ->
  let swept := verify_otp now phone code (cleanup sweep otpStorage) in
  let plain := verify_otp now phone code otpStorage in
  fst swept = cleanup sweep (fst plain) /\
  success (snd swept) = success (snd plain) /\
  (snd swept = snd plain \/ (snd plain = expired /\ snd swept = not_found)).
Proof.
  intros Hle swept plain. unfold swept, plain, verify_otp.
  destruct phone as [p |]; [| cbn; auto].
  destruct code as [c |]; [| cbn; auto].
  destruct (negb (truthy (Some p)) || negb (truthy (Some c))); [cbn; auto |].
  rewrite cleanup_lookup.
  destruct (otpStorage !! p) as [storedData |] eqn:Hget; [| cbn; auto].
  destruct (Z.gtb_spec sweep (expiresAt storedData)) as [Hgone | Hkept].
  - destruct (Z.gtb_spec now (expiresAt storedData)); [| lia].
    cbn [fst snd]. split; [| split; [reflexivity | right; split; reflexivity]].
    rewrite cleanup_delete. symmetry. apply delete_id.
    rewrite cleanup_lookup, Hget.
    destruct (Z.gtb_spec sweep (expiresAt storedData)); [reflexivity | lia].
  - destruct (now >? expiresAt storedData).
    + cbn [fst snd]. rewrite cleanup_delete. auto.
    + destruct (String.eqb (otp storedData) c); cbn [fst snd].
      * rewrite cleanup_delete. auto.
      * auto.
Qed.

Lemma cleanup_then_verify_witness :
  300001 <= 300002 /\
  snd (verify_otp 300002 (Some "9876543210") (Some "483920")
         (cleanup 300001 sample_storage)) = not_found /\
  snd (verify_otp 300002 (Some "9876543210") (Some "483920") sample_storage)
  = expired /\
  fst (verify_otp 300002 (Some "9876543210") (Some "483920")
         (cleanup 300001 sample_storage))
  = cleanup 300001
      (fst (verify_otp 300002 (Some "9876543210") (Some "483920") sample_storage)).
Proof.
  assert (300001 <= 300002) as Hle by lia.
  split; [exact Hle |].
  pose proof (cleanup_then_verify 300001 300002 (Some "9876543210")
                (Some "483920") sample_storage Hle) as (Hst & _ & _).
  split; [| split; [| exact Hst]].
  - unfold verify_otp. cbn [truthy String.eqb negb orb Ascii.eqb Bool.eqb].
    rewrite cleanup_lookup. unfold sample_storage.
    rewrite lookup_singleton_eq. reflexivity.
  - unfold verify_otp, sample_storage.
    cbn [truthy String.eqb negb orb Ascii.eqb Bool.eqb].
    rewrite lookup_singleton_eq. reflexivity.
Defined.

(** ** The store invariant *)



Lemma generateOTP_shape (random : Q) :
  (0 <= random < 1)%Q ->
  String.length (generateOTP random) = 6%nat /\
  all_digits (generateOTP random) = true.
Proof.
  intros Hr. unfold generateOTP.
  rewrite (toString_six_digits _ (generateOTP_range random Hr)).
  unfold zero_padded. split.
  - now rewrite zero_padded_go_length.
  - now apply zero_padded_go_digits.
Qed.




(** * The browser side *)

(** ** Input sanitising *)

Lemma strip_non_digits_all_digits (value : string) :
  all_digits (strip_non_digits value) = true.
Proof.
  induction value as [| c rest IH]; [reflexivity |].
  cbn [strip_non_digits]. destruct (is_digit c) eqn:Hc; [| exact IH].
  unfold all_digits in *. cbn [list_ascii_of_string forallb].
  now rewrite Hc, IH.
Qed.

Lemma strip_non_digits_fixes_digits (value : string) :
  all_digits value = true -> strip_non_digits value = value.
Proof.
  unfold all_digits. induction value as [| c rest IH]; [reflexivity |].
  cbn [list_ascii_of_string forallb strip_non_digits].
  intros [Hc Hrest]%andb_prop. rewrite Hc. now rewrite IH.
Qed.

Lemma strip_non_digits_length (value : string) :
  (String.length (strip_non_digits value) <= String.length value)%nat.
Proof.
  induction value as [| c rest IH]; [reflexivity |].
  cbn [strip_non_digits]. destruct (is_digit c); cbn [String.length]; lia.
Qed.

(** X13. The filter the phone and code inputs pass their text through keeps
    exactly the decimal digits: its result is all digits and no longer than
    the text, a text of digits goes through unchanged, filtering twice is
    filtering once; and a filtered text of length ten is a phone number the
    server's test accepts. *)
Theorem strip_non_digits_sanitises (value : string) :
  all_digits (strip_non_digits value) = true /\
  (String.length (strip_non_digits value) <= String.length value)%nat /\
  (all_digits value = true -> strip_non_digits value = value) /\
  strip_non_digits (strip_non_digits value) = strip_non_digits value /\
  (String.length (strip_non_digits value) = 10%nat ->
   test_phone (strip_non_digits value) = true).
Proof.
  pose proof (strip_non_digits_all_digits value) as Hdigits.
  split; [exact Hdigits |].
  split; [apply strip_non_digits_length |].
  split; [apply strip_non_digits_fixes_digits |].
  split; [now apply strip_non_digits_fixes_digits |].
  intros Hlen. unfold test_phone. rewrite Hlen, Hdigits. reflexivity.
Qed.

Example strip_non_digits_sample :
  strip_non_digits "+91 (98765) 432-10x" = "919876543210".
Proof. reflexivity. Qed.

(** ** What the component never does *)

Lemma run_snoc (events : list Auth.Event) (e : Auth.Event) (s : Auth.State) :
  Auth.run (events ++ [e]) s = Auth.step (Auth.run events s) e.
Proof. unfold Auth.run. now rewrite fold_left_app. Qed.

(** A step leaves the phone field alone or sets it to filtered text; the code
    field likewise, or empties it. *)
Lemma step_fields_digits (s : Auth.State) (e : Auth.Event) :
  all_digits (Auth.phone s) = true ->
  all_digits (Auth.otp s) = true ->
  all_digits (Auth.phone (Auth.step s e)) = true /\
  all_digits (Auth.otp (Auth.step s e)) = true.
Proof.
  intros Hphone Hotp.
  destruct e; cbn [Auth.step]; try (split; assumption).
  - split; [apply strip_non_digits_all_digits | assumption].
  - split; [assumption | apply strip_non_digits_all_digits].
  - unfold Auth.handleSendOTP_begin.
    destruct (_ || _); split; assumption.
  - unfold Auth.handleSendOTP_resume.
    destruct (Client.success result); [destruct (truthy (Client.debug result)) |];
      split; assumption.
  - unfold Auth.handleVerifyOTP_begin.
    destruct (_ || _); split; assumption.
  - unfold Auth.handleVerifyOTP_resume.
    destruct (Auth.accepted result); split; (assumption || reflexivity).
  - unfold Auth.handleSubmit_begin.
    destruct (_ && _); split; assumption.
  - unfold Auth.handleSubmit_timeout.
    destruct registering; split; assumption.
  - split; [assumption | reflexivity].
Qed.

Lemma run_fields_digits (spirituality : string) (events : list Auth.Event) :
  all_digits (Auth.phone (Auth.run events (Auth.initial spirituality))) = true /\
  all_digits (Auth.otp (Auth.run events (Auth.initial spirituality))) = true.
Proof.
  induction events as [| e events IH] using rev_ind.
  - split; reflexivity.
  - rewrite run_snoc. destruct IH as [Hphone Hotp]. now apply step_fields_digits.
Qed.

(** X14. Whatever the user did to the form since it was mounted, when a
    click on "Send OTP" goes through to the server the phone number it
    carries passes the server's ten-digit test, so the server never answers
    that request with 400; and when a click on "Verify" goes through, the
    code it carries is six decimal digits. *)
Theorem auth_sends_only_well_formed (spirituality : string)
    (events : list Auth.Event) :
  let s := Auth.run events (Auth.initial spirituality) in
  (forall p, snd (Auth.handleSendOTP_begin s) = Some p ->
     p = Auth.phone s /\ test_phone p = true /\
     forall env axios_post now random otpStorage,
       status (snd (send_otp env axios_post now random (Some p) otpStorage))
       <> 400) /\
  (forall p c, snd (Auth.handleVerifyOTP_begin s) = Some (p, c) ->
     p = Auth.phone s /\ c = Auth.otp s /\
     String.length c = 6%nat /\ all_digits c = true).
Proof.
  intros s. destruct (run_fields_digits spirituality events) as [Hphone Hotp].
  fold s in Hphone, Hotp. split.
  - intros p. unfold Auth.handleSendOTP_begin.
    destruct (Nat.eqb_spec (String.length (Auth.phone s)) 10) as [Hlen | Hlen].
    + destruct (truthy (Some (Auth.phone s))); cbn; [| discriminate].
      intros [= <-]. split; [reflexivity |].
      assert (test_phone (Auth.phone s) = true) as Ht
        by (unfold test_phone; rewrite Hlen, Hphone; reflexivity).
      split; [exact Ht |]. intros env axios_post now random otpStorage.
      rewrite send_otp_valid_response by assumption.
      destruct (not_production env && negb (truthy (FAST2SMS_API_KEY env)));
        [discriminate |].
      destruct (send_otp_resume_cases env (generateOTP random)
                  (axios_post
                     (sms_request (FAST2SMS_API_KEY env) (Auth.phone s)
                        (generateOTP random))))
        as [(msg & dbg & ->) | (msg & detail & ->)]; discriminate.
    + rewrite orb_true_r. discriminate.
  - intros p c. unfold Auth.handleVerifyOTP_begin.
    destruct (Nat.eqb_spec (String.length (Auth.otp s)) 6) as [Hlen | Hlen].
    + destruct (truthy (Some (Auth.otp s))); cbn; [| discriminate].
      intros [= <- <-]. repeat split; assumption.
    + rewrite orb_true_r. discriminate.
Qed.

(** The only step that can turn [isPhoneVerified] on is the continuation of
    [handleVerifyOTP], on an answer with [success && verified]. *)
Lemma step_verified (s : Auth.State) (e : Auth.Event) :
  Auth.isPhoneVerified (Auth.step s e) = true ->
  Auth.isPhoneVerified s = true \/
  exists result, e = Auth.VerifyReturned result /\ Auth.accepted result = true.
Proof.
  destruct e; cbn [Auth.step]; try (now left).
  - unfold Auth.handleSendOTP_begin. destruct (_ || _); now left.
  - unfold Auth.handleSendOTP_resume.
    destruct (Client.success result); [destruct (truthy (Client.debug result)) |];
      now left.
  - unfold Auth.handleVerifyOTP_begin. destruct (_ || _); now left.
  - unfold Auth.handleVerifyOTP_resume.
    destruct (Auth.accepted result) eqn:Hacc; [right; eauto | now left].
  - unfold Auth.handleSubmit_begin. destruct (_ && _); now left.
  - unfold Auth.handleSubmit_timeout. destruct registering; [discriminate | now left].
Qed.

Lemma run_verified (spirituality : string) (events : list Auth.Event) :
  Auth.isPhoneVerified (Auth.run events (Auth.initial spirituality)) = true ->
  exists result,
    In (Auth.VerifyReturned result) events /\ Auth.accepted result = true.
Proof.
  induction events as [| e events IH] using rev_ind; [discriminate |].
  rewrite run_snoc. intros [Hbefore | (result & -> & Hacc)]%step_verified.
  - destruct (IH Hbefore) as (result & Hin & Hacc).
    exists result. split; [| exact Hacc]. apply in_or_app. now left.
  - exists result. split; [| exact Hacc]. apply in_or_app. right. now left.
Qed.

(** X15. The component holds a phone for verified only after a verify
    answer with [success && verified] has come back: in every run from the
    mounted form, [isPhoneVerified] being set means such an answer is among
    the events; a failed or lost verify, or any other handler, never sets
    it. *)
Theorem verified_only_after_accepted_answer (spirituality : string)
    (events : list Auth.Event) :
  Auth.isPhoneVerified (Auth.run events (Auth.initial spirituality)) = true ->
  exists result,
    In (Auth.VerifyReturned result) events /\
    Client.success result = true /\ Client.verified result = Some true.
Proof.
  intros (result & Hin & Hacc)%run_verified. exists result.
  split; [exact Hin |]. unfold Auth.accepted in Hacc.
  apply andb_prop in Hacc as [Hs Hv]. split; [exact Hs |].
  destruct (Client.verified result) as [[|] |]; (reflexivity || discriminate).
Qed.

Lemma verified_only_after_accepted_answer_witness :
  Auth.isPhoneVerified
    (Auth.run [Auth.PhoneChanged "98765 43210"; Auth.VerifyReturned accepted_answer]
       (Auth.initial "Spirituality")) = true /\
  exists result,
    In (Auth.VerifyReturned result)
       [Auth.PhoneChanged "98765 43210"; Auth.VerifyReturned accepted_answer] /\
    Client.success result = true /\ Client.verified result = Some true.
Proof.
  assert (Auth.isPhoneVerified
            (Auth.run [Auth.PhoneChanged "98765 43210";
                       Auth.VerifyReturned accepted_answer]
               (Auth.initial "Spirituality")) = true) as Hv by reflexivity.
  split; [exact Hv |].
  exact (verified_only_after_accepted_answer "Spirituality" _ Hv).
Defined.

(** X16. A sign-up is never registered for an unverified phone: in every
    run from the mounted form, when a submit in sign-up mode arms the
    registration timer, a verify answer with [success && verified] is among
    the earlier events; otherwise the submit only shows "Please verify your
    phone number with OTP first." and arms nothing. Registration, once the
    timer fires, takes the verification back. *)
Theorem registration_requires_verified_phone (spirituality : string)
    (events : list Auth.Event) :
  let s := Auth.run events (Auth.initial spirituality) in
  (snd (Auth.handleSubmit_begin s) = Some true ->
   exists result,
     In (Auth.VerifyReturned result) events /\ Auth.accepted result = true) /\
  (Auth.isSignup s = true -> Auth.isPhoneVerified s = false ->
   Auth.handleSubmit_begin s
   = (Auth.setFeedback
        (Some {| Auth.type := Auth.Error;
                 Auth.text := "Please verify your phone number with OTP first." |})
        s,
      None)) /\
  Auth.isPhoneVerified (fst (Auth.handleSubmit_timeout true s)) = false /\
  Auth.isSignup (fst (Auth.handleSubmit_timeout true s)) = false.
Proof.
  intros s. split; [| split; [| split; reflexivity]].
  - unfold Auth.handleSubmit_begin.
    destruct (Auth.isSignup s) eqn:Hsignup;
      destruct (Auth.isPhoneVerified s) eqn:Hverified; cbn; try discriminate.
    intros _. now apply (run_verified spirituality).
  - intros Hsignup Hverified. unfold Auth.handleSubmit_begin.
    now rewrite Hsignup, Hverified.
Qed.

(** ** The component against the server *)

Lemma accepted_json_body (res : Response) :
  Auth.accepted (json_body res) = true <-> success res = true /\ verified res = Some true.
Proof.
  unfold Auth.accepted, json_body. cbn.
  destruct (success res), (verified res) as [[|] |]; cbn;
    split; (intros [? ?] || intros ?); (discriminate || auto).
Qed.

Lemma verify_otp_success_spec (now : Z) (phone code : string)
    (otpStorage : Storage) :
  success (snd (verify_otp now (Some phone) (Some code) otpStorage)) = true <->
  phone <> "" /\ code <> "" /\
  exists storedData,
    otpStorage !! phone = Some storedData /\
    otp storedData = code /\ now <= expiresAt storedData.
Proof.
  split.
  - unfold verify_otp.
    destruct (String.eqb_spec phone "") as [-> | Hp]; [discriminate |].
    destruct (String.eqb_spec code "") as [-> | Hc].
    { rewrite truthy_Some by assumption. discriminate. }
    rewrite !truthy_Some by assumption. cbn [negb orb].
    destruct (otpStorage !! phone) as [storedData |] eqn:Hget; [| discriminate].
    destruct (Z.gtb_spec now (expiresAt storedData)); [discriminate |].
    destruct (String.eqb_spec (otp storedData) code); [| discriminate].
    intros _. split; [assumption |]. split; [assumption |].
    exists storedData. split; [reflexivity |]. split; [assumption | lia].
  - intros (Hp & Hc & storedData & Hget & Heq & Hle).
    now rewrite (verify_otp_match now phone code otpStorage Hp Hc storedData Hget Hle Heq).
Qed.

(** X17. What [verifyOTP] brings back from the server counts as a
    verification exactly when the request was answered and the server held,
    for that phone, an entry with that code that had not lapsed; the server
    has then deleted the entry. *)
Theorem client_verified_iff_server_accepted (net : Network) (now : Z)
    (phone code : string) (otpStorage : Storage) :
  let fetch p c := snd (post_verify_otp net now p c otpStorage) in
  (Auth.accepted (Client.verifyOTP fetch phone code) = true <->
   net = Answered /\ phone <> "" /\ code <> "" /\
   exists storedData,
     otpStorage !! phone = Some storedData /\
     otp storedData = code /\ now <= expiresAt storedData) /\
  (Auth.accepted (Client.verifyOTP fetch phone code) = true ->
   fst (post_verify_otp net now phone code otpStorage) = delete phone otpStorage).
Proof.
  intros fetch.
  assert (Auth.accepted (Client.verifyOTP fetch phone code) = true <->
          net = Answered /\
          success (snd (verify_otp now (Some phone) (Some code) otpStorage)) = true)
    as Hanswered.
  { unfold Client.verifyOTP, fetch, post_verify_otp.
    destruct net; cbn [snd].
    - rewrite accepted_json_body. split.
      + intros [Hs _]. now split.
      + intros [_ Hs]. split; [exact Hs |].
        apply verify_otp_success_spec in Hs
          as (Hp & Hc & storedData & Hget & Heq & Hle).
        now rewrite (verify_otp_match now phone code otpStorage Hp Hc storedData
                       Hget Hle Heq).
    - split; [discriminate | intros [[=] _]].
    - split; [discriminate | intros [[=] _]]. }
  split.
  - rewrite Hanswered, verify_otp_success_spec. reflexivity.
  - intros [-> Hs]%Hanswered. unfold post_verify_otp. cbn [fst].
    apply verify_otp_success_spec in Hs
      as (Hp & Hc & storedData & Hget & Heq & Hle).
    now rewrite (verify_otp_match now phone code otpStorage Hp Hc storedData
                   Hget Hle Heq).
Qed.

(** X18. When the server accepts a code but its answer is lost on the way,
    the code is spent all the same: the client reports "Failed to verify OTP.
    Please try again.", the component shows it as an error and does not hold
    the phone for verified, and the retry with the same code is answered "No
    OTP found for this phone number. Please request a new OTP." *)
Theorem lost_answer_spends_the_code (now retry : Z) (phone code : string)
    (otpStorage : Storage) (storedData : StoredData) (s : Auth.State) :
  phone <> "" ->
  code <> "" ->
  otpStorage !! phone = Some storedData ->
  otp storedData = code ->
  now <= expiresAt storedData ->
  let lost := post_verify_otp ResponseLost now phone code otpStorage in
  let result := Client.verifyOTP (fun _ _ => snd lost) phone code in
  let again := post_verify_otp Answered retry phone code (fst lost) in
  fst lost = delete phone otpStorage /\
  result = Client.failed "Failed to verify OTP. Please try again." /\
  Auth.isPhoneVerified (Auth.handleVerifyOTP_resume result s)
  = Auth.isPhoneVerified s /\
  Auth.feedback (Auth.handleVerifyOTP_resume result s)
  = Some {| Auth.type := Auth.Error;
            Auth.text := "Failed to verify OTP. Please try again." |} /\
  snd again = Client.Fetched (json_body not_found) /\
  Auth.feedback
    (Auth.handleVerifyOTP_resume
       (Client.verifyOTP (fun _ _ => snd again) phone code) s)
  = Some {| Auth.type := Auth.Error;
            Auth.text :=
              "No OTP found for this phone number. Please request a new OTP." |}.
Proof.
  intros Hp Hc Hget Heq Hle lost result again.
  assert (fst lost = delete phone otpStorage) as Hlost.
  { unfold lost, post_verify_otp. cbn [fst].
    now rewrite (verify_otp_match now phone code otpStorage Hp Hc storedData
                   Hget Hle Heq). }
  assert (snd again = Client.Fetched (json_body not_found)) as Hagain.
  { unfold again, post_verify_otp. cbn [snd]. rewrite Hlost.
    rewrite (verify_otp_absent retry phone code _ Hp Hc); [reflexivity |].
    apply lookup_delete_eq. }
  split; [exact Hlost |]. split; [reflexivity |].
  split; [reflexivity |]. split; [reflexivity |]. split; [exact Hagain |].
  unfold Client.verifyOTP. rewrite Hagain. reflexivity.
Qed.

Lemma lost_answer_spends_the_code_witness :
  "9876543210" <> "" /\
  "483920" <> "" /\
  sample_storage !! "9876543210" = Some sample_entry /\
  otp sample_entry = "483920" /\
  10000 <= expiresAt sample_entry /\
  fst (post_verify_otp ResponseLost 10000 "9876543210" "483920" sample_storage)
  = delete "9876543210" sample_storage.
Proof.
  assert ("9876543210" <> "") as Hp by discriminate.
  assert ("483920" <> "") as Hc by discriminate.
  assert (sample_storage !! "9876543210" = Some sample_entry) as Hget
    by apply lookup_singleton_eq.
  assert (otp sample_entry = "483920") as Heq by reflexivity.
  assert (10000 <= expiresAt sample_entry) as Hle by (simpl; lia).
  repeat (split; [assumption |]).
  exact (proj1 (lost_answer_spends_the_code 10000 20000 "9876543210" "483920"
                  sample_storage sample_entry (Auth.initial "Spirituality")
                  Hp Hc Hget Heq Hle)).
Defined.

Lemma send_otp_development_response (env : Env)
    (axios_post : SmsRequest -> AxiosResult) (now : Z) (random : Q)
    (phone : string) (otpStorage : Storage) :
  test_phone phone = true ->
  NODE_ENV env <> Some "production" ->
  exists msg,
    snd (send_otp env axios_post now random (Some phone) otpStorage)
    = sent msg (Some (generateOTP random)).
Proof.
  intros Ht Hdev.
  assert (not_production env = true) as Hnp.
  { destruct (not_production env) eqn:Hnp; [reflexivity |].
    now apply not_production_false in Hnp. }
  rewrite send_otp_valid_response by assumption. rewrite Hnp.
  destruct (negb (truthy (FAST2SMS_API_KEY env))); cbn [andb]; [eauto |].
  unfold send_otp_resume, send_otp_catch. rewrite Hnp.
  destruct (axios_post _) as [[data |] | smsError];
    [destruct (return_true data) | |]; eauto.
Qed.

(** X19. The whole exchange outside production, whatever the provider
    does: the user types a phone number whose digits are ten, clicks "Send
    OTP", and the form shows "OTP sent! (Dev: <code>)" with the code the
    server stored and opens the code box; the user types that code and
    clicks "Verify" before the code lapses, and the component holds the phone
    for verified while the server has deleted the entry. *)
Theorem development_round_trip (env : Env)
    (axios_post : SmsRequest -> AxiosResult) (now now' : Z) (random : Q)
    (value : string) (s : Auth.State) (otpStorage : Storage) :
  NODE_ENV env <> Some "production" ->
  (0 <= random < 1)%Q ->
  String.length (strip_non_digits value) = 10%nat ->
  now' <= now + 300000 ->
  let code := generateOTP random in
  let s1 := Auth.step s (Auth.PhoneChanged value) in
  let p := Auth.phone s1 in
  let sending := Auth.handleSendOTP_begin s1 in
  let issued := post_send_otp Answered env axios_post now random p otpStorage in
  let s2 :=
    Auth.handleSendOTP_resume
      (Client.sendOTP
         (fun phone =>
            snd (post_send_otp Answered env axios_post now random phone otpStorage))
         p)
      (fst sending) in
  let s3 := Auth.step s2 (Auth.OtpChanged code) in
  let verifying := Auth.handleVerifyOTP_begin s3 in
  let checked := post_verify_otp Answered now' p code (fst issued) in
  let s4 :=
    Auth.handleVerifyOTP_resume
      (Client.verifyOTP
         (fun phone c => snd (post_verify_otp Answered now' phone c (fst issued)))
         p code)
      (fst verifying) in
  snd sending = Some p /\
  Auth.feedback s2
  = Some {| Auth.type := Auth.Success;
            Auth.text := "OTP sent! (Dev: " +:+ code +:+ ")" |} /\
  Auth.otpSent s2 = true /\
  Auth.showOTPVerification s2 = true /\
  snd verifying = Some (p, code) /\
  Auth.isPhoneVerified s4 = true /\
  Auth.otpLoading s4 = false /\
  fst checked !! p = None.
Proof.
  intros Hdev Hr Hlen Hnow code s1 p sending issued s2 s3 verifying checked s4.
  assert (p = strip_non_digits value) as Hp by reflexivity.
  assert (test_phone p = true) as Ht
    by (rewrite Hp; unfold test_phone;
        rewrite Hlen, strip_non_digits_all_digits; reflexivity).
  pose proof (test_phone_nonempty p Ht) as Hne.
  pose proof (generateOTP_nonempty random Hr) as Hcode.
  destruct (generateOTP_shape random Hr) as [Hsix Hdigits].
  assert (snd sending = Some p /\ Auth.phone (fst sending) = p) as [Hsend Hphone1].
  { unfold sending, Auth.handleSendOTP_begin. fold p.
    rewrite truthy_Some by assumption.
    replace (String.length p) with 10%nat by (rewrite Hp; now rewrite Hlen).
    cbn. split; reflexivity. }
  destruct (send_otp_development_response env axios_post now random p otpStorage
              Ht Hdev) as [msg Hres].
  assert (Client.sendOTP
            (fun phone =>
               snd (post_send_otp Answered env axios_post now random phone otpStorage))
            p
          = json_body (sent msg (Some code))) as Hresult.
  { unfold Client.sendOTP, post_send_otp. cbn [snd]. now rewrite Hres. }
  assert (Auth.feedback s2
          = Some {| Auth.type := Auth.Success;
                    Auth.text := "OTP sent! (Dev: " +:+ code +:+ ")" |} /\
          Auth.otpSent s2 = true /\ Auth.showOTPVerification s2 = true /\
          Auth.phone s2 = p) as (Hfeedback & Hsent & Hshow & Hphone2).
  { unfold s2. rewrite Hresult. unfold Auth.handleSendOTP_resume, json_body.
    cbn [Client.success Client.debug Client.message success debug message sent].
    rewrite truthy_Some by assumption. cbn. repeat split. exact Hphone1. }
  assert (snd verifying = Some (p, code) /\
          Auth.isPhoneVerified
            (Auth.handleVerifyOTP_resume accepted_answer (fst verifying)) = true /\
          Auth.otpLoading
            (Auth.handleVerifyOTP_resume accepted_answer (fst verifying)) = false)
    as (Hverifying & Hverified & Hloading).
  { clearbody s2. unfold verifying, Auth.handleVerifyOTP_begin, s3.
    cbn [Auth.step]. cbn [Auth.otp Auth.setOtp Auth.phone].
    rewrite (strip_non_digits_fixes_digits code Hdigits).
    rewrite truthy_Some by assumption. fold code in Hsix. rewrite Hsix.
    cbn. rewrite Hphone2. repeat split. }
  assert (fst issued
          = <[p := {| otp := code; expiresAt := now + 300000 |}]> otpStorage)
    as Hissued.
  { unfold issued, post_send_otp. cbn [fst]. now apply send_otp_stores. }
  assert (verify_otp now' (Some p) (Some code) (fst issued)
          = (delete p (fst issued), verified_ok)) as Hcheck.
  { apply (verify_otp_match now' p code (fst issued) Hne Hcode
             {| otp := code; expiresAt := now + 300000 |}).
    - rewrite Hissued. apply lookup_insert_eq.
    - exact Hnow.
    - reflexivity. }
  assert (Client.verifyOTP
            (fun phone c => snd (post_verify_otp Answered now' phone c (fst issued)))
            p code = accepted_answer) as Hanswer.
  { unfold Client.verifyOTP, post_verify_otp. cbn [snd]. now rewrite Hcheck. }
  split; [exact Hsend |]. split; [exact Hfeedback |]. split; [exact Hsent |].
  split; [exact Hshow |]. split; [exact Hverifying |].
  unfold s4. rewrite Hanswer.
  split; [exact Hverified |]. split; [exact Hloading |].
  unfold checked, post_verify_otp. cbn [fst]. rewrite Hcheck. cbn [fst].
  apply lookup_delete_eq.
Qed.

Lemma development_round_trip_witness :
  NODE_ENV dev_env <> Some "production" /\
  (0 <= 1 # 2 < 1)%Q /\
  String.length (strip_non_digits "98765-43210") = 10%nat /\
  10000 <= 0 + 300000 /\
  snd (Auth.handleSendOTP_begin
         (Auth.step (Auth.initial "Spirituality") (Auth.PhoneChanged "98765-43210")))
  = Some "9876543210".
Proof.
  assert (NODE_ENV dev_env <> Some "production") as Hdev by discriminate.
  assert ((0 <= 1 # 2 < 1)%Q) as Hr by (split; [discriminate | reflexivity]).
  assert (String.length (strip_non_digits "98765-43210") = 10%nat) as Hlen
    by reflexivity.
  assert (10000 <= 0 + 300000) as Hnow by lia.
  repeat (split; [assumption |]).
  exact (proj1 (development_round_trip dev_env provider_down 0 10000 (1 # 2)
                  "98765-43210" (Auth.initial "Spirituality") ∅
                  Hdev Hr Hlen Hnow)).
Defined.

(** X20. In production the form never shows the code. After a click on
    "Send OTP" with a well-formed phone number the answer carries no
    [debug]; the form reports "OTP sent successfully" and opens the code box
    when the request was answered and the provider delivered, and otherwise
    reports an error and leaves the code box as it was, although the server,
    if the request reached it, holds the fresh code for the phone. *)
Theorem production_send_click (net : Network) (env : Env)
    (axios_post : SmsRequest -> AxiosResult) (now : Z) (random : Q)
    (phone : string) (otpStorage : Storage) (s : Auth.State) :
  test_phone phone = true ->
  NODE_ENV env = Some "production" ->
  let delivered :=
    negb (transport_failed
            (axios_post
               (sms_request (FAST2SMS_API_KEY env) phone (generateOTP random)))) in
  let outcome := post_send_otp net env axios_post now random phone otpStorage in
  let result :=
    Client.sendOTP
      (fun p => snd (post_send_otp net env axios_post now random p otpStorage))
      phone in
  let s' := Auth.handleSendOTP_resume result s in
  Client.debug result = None /\
  Auth.otpLoading s' = false /\
  (net = Answered -> delivered = true ->
   Auth.feedback s'
   = Some {| Auth.type := Auth.Success; Auth.text := "OTP sent successfully" |} /\
   Auth.otpSent s' = true /\ Auth.showOTPVerification s' = true) /\
  (net <> Answered \/ delivered = false ->
   Auth.feedback s'
   = Some {| Auth.type := Auth.Error; Auth.text := Client.message result |} /\
   Auth.otpSent s' = Auth.otpSent s /\
   Auth.showOTPVerification s' = Auth.showOTPVerification s) /\
  (net <> RequestLost ->
   fst outcome !! phone
   = Some {| otp := generateOTP random; expiresAt := now + 300000 |}).
Proof.
  intros Ht Hprod delivered outcome result s'.
  pose proof Hprod as Hnp. apply not_production_false in Hnp.
  assert (snd (send_otp env axios_post now random (Some phone) otpStorage)
          = send_otp_resume env (generateOTP random)
              (axios_post
                 (sms_request (FAST2SMS_API_KEY env) phone (generateOTP random))))
    as Hres.
  { rewrite send_otp_valid_response by assumption. now rewrite Hnp. }
  assert (net = Answered -> delivered = true ->
          result = json_body (sent "OTP sent successfully" None)) as Hok.
  { intros -> Hdel. unfold result, Client.sendOTP, post_send_otp. cbn [snd].
    rewrite Hres. unfold send_otp_resume. unfold delivered in Hdel.
    destruct (axios_post _) as [[data |] | smsError]; cbn in Hdel;
      try discriminate.
    destruct (return_true data); [| discriminate]. now rewrite Hnp. }
  assert (net <> Answered \/ delivered = false ->
          Client.success result = false /\ Client.debug result = None) as Hbad.
  { intros Hcase. unfold result, Client.sendOTP, post_send_otp.
    destruct net; cbn [snd]; try (split; reflexivity).
    destruct Hcase as [Hcase | Hdel]; [congruence |].
    rewrite Hres. unfold delivered in Hdel.
    apply negb_false_iff in Hdel.
    destruct (send_otp_resume_production_failure env (generateOTP random) _
                Hnp Hdel) as [msg ->].
    split; reflexivity. }
  assert (net = Answered /\ delivered = true \/
          (net <> Answered \/ delivered = false)) as Hcases.
  { destruct net, delivered; auto; right; left; discriminate. }
  split; [| split; [| split; [| split]]].
  - destruct Hcases as [[Hnet Hdel] | Hcase].
    + now rewrite (Hok Hnet Hdel).
    + now destruct (Hbad Hcase).
  - unfold s', Auth.handleSendOTP_resume.
    destruct (Client.success result); [destruct (truthy (Client.debug result)) |];
      reflexivity.
  - intros Hnet Hdel. unfold s'. rewrite (Hok Hnet Hdel). repeat split.
  - intros Hcase. destruct (Hbad Hcase) as [Hs _].
    unfold s', Auth.handleSendOTP_resume. rewrite Hs. repeat split.
  - intros Hnet. unfold outcome, post_send_otp.
    destruct net; [| contradiction |]; cbn [fst];
      rewrite send_otp_stores by assumption; apply lookup_insert_eq.
Qed.

Lemma production_send_click_witness :
  test_phone "9876543210" = true /\
  NODE_ENV prod_env = Some "production" /\
  Auth.feedback
    (Auth.handleSendOTP_resume
       (Client.sendOTP
          (fun p => snd (post_send_otp Answered prod_env provider_refuses 0 (1 # 2) p ∅))
          "9876543210")
       (Auth.initial "Spirituality"))
  = Some {| Auth.type := Auth.Error;
            Auth.text := "Failed to send OTP via SMS Provider" |} /\
  fst (post_send_otp Answered prod_env provider_refuses 0 (1 # 2) "9876543210" ∅)
  !! "9876543210"
  = Some {| otp := "550000"; expiresAt := 300000 |}.
Proof.
  assert (test_phone "9876543210" = true) as Ht by reflexivity.
  assert (NODE_ENV prod_env = Some "production") as Hprod by reflexivity.
  split; [exact Ht |]. split; [exact Hprod |]. split; [reflexivity |].
  pose proof (production_send_click Answered prod_env provider_refuses 0 (1 # 2)
                "9876543210" ∅ (Auth.initial "Spirituality") Ht Hprod)
    as (_ & _ & _ & _ & Hheld).
  apply Hheld. discriminate.
Defined.

(** ** The health check *)

(** X21. [checkBackendHealth] answers [true] exactly when a body came back
    whose [status] member is the string "OK", and so it does against this
    server's health endpoint; a failed request gives [false]. *)
Theorem checkBackendHealth_agrees (fetch : Client.Fetch Client.Health) :
  (Client.checkBackendHealth fetch = true <->
   exists data, fetch = Client.Fetched data /\ Client.status data = Some "OK") /\
  Client.checkBackendHealth (Client.Fetched health) = true /\
  Client.checkBackendHealth Client.FetchFailed = false.
Proof.
  split; [| split; reflexivity]. unfold Client.checkBackendHealth. split.
  - destruct fetch as [data |]; [| discriminate].
    destruct (Client.status data) as [v |] eqn:Hstatus; [| discriminate].
    destruct (String.eqb_spec v "OK") as [-> | _]; [| discriminate].
    intros _. exists data. now split.
  - intros (data & -> & ->). reflexivity.
Qed.
